(** * The account ledger of the banking system

    A shallow embedding of [accounts/models.py]: the [Account] base class,
    its [SavingsAccount] and [CurrentAccount] subclasses and the
    [Transaction] rows they create, followed by the properties of the ledger
    core that the specification states about them.

    Layout:
    - [Decimal]: Python's [decimal.Decimal] as the program uses it (finite
      numbers, default context: 28 significant digits, ROUND_HALF_EVEN,
      exponents between Emin and Emax, Overflow trapped), the [quantize]
      with which Django writes a [DecimalField], and the rational [value]
      of a decimal;
    - the object model: [Account], [Transaction], the exceptions, the
      random source and the state a method call runs in;
    - the methods of [models.py], one definition per method;
    - [Db]: the two account tables and their unique constraint;
    - facts about [Decimal] and about the methods;
    - the properties of the ledger, one section per subject. *)

From Stdlib Require Import ZArith QArith Qpower Lia Lqa List String Ascii Bool.
Import ListNotations.
Open Scope Z_scope.

(* ===================================================================== *)
(** ** Python's [Decimal] *)
(* ===================================================================== *)

(** A finite [Decimal] is a signed coefficient and an exponent: the number
    [coef * 10 ^ exp].  [Decimal('500.00')] is [mkDecimal 50000 (-2)].
    The sign is carried by the coefficient, so there is no negative zero;
    NaN and the infinities are not modelled: no operation of the program
    produces them, the signals that would are trapped. *)
Record Decimal : Type := mkDecimal { coef : Z; exp : Z }.

(** The signals the default context traps: the operation raises the
    exception of that name. *)
Inductive Signal : Type := Overflow | InvalidOperation | DivisionByZero.

(** The default context: [getcontext().prec], ROUND_HALF_EVEN, and the
    limits of the exponent. *)
Definition prec : Z := 28.
Definition Emax : Z := 999999.
Definition Emin : Z := -999999.

(** [Context.Etiny()] and [Context.Etop()] *)
Definition Etiny : Z := Emin - prec + 1.
Definition Etop : Z := Emax - prec + 1.

(** [len(str(c))] for a non-negative integer [c]. *)
Fixpoint ndigits_aux (fuel : nat) (c : Z) : Z :=
  match fuel with
  | O => 1
  | S f => if c <? 10 then 1 else 1 + ndigits_aux f (c / 10)
  end.

Definition ndigits (c : Z) : Z :=
  ndigits_aux (Z.to_nat (Z.log2 (Z.abs c))) (Z.abs c).

(** A non-negative coefficient without its last [k] digits, rounded half
    to even. *)
Definition round_half_even (c k : Z) : Z :=
  let q := c / 10 ^ k in
  let r := c mod 10 ^ k in
  match 2 * r ?= 10 ^ k with
  | Gt => q + 1
  | Eq => if Z.even q then q else q + 1
  | Lt => q
  end.

(** [Decimal._fix]: fit a result into the context.  A zero has its
    exponent brought between [Etiny] and [Emax].  A number whose adjusted
    exponent is above [Emax] raises Overflow.  A coefficient of more than
    [prec] digits, or one that reaches below [Etiny], loses its last
    digits, rounding half to even; when that carries into one more digit
    the last digit is dropped as well.  Anything else is returned as it
    is. *)
Definition fix_ (d : Decimal) : Signal + Decimal :=
  let c := Z.abs (coef d) in
  if c =? 0
  then inr (mkDecimal 0 (Z.min (Z.max (exp d) Etiny) Emax))
  else
    let exp_min0 := ndigits c + exp d - prec in
    if Etop <? exp_min0 then inl Overflow
    else
      let exp_min := Z.max exp_min0 Etiny in
      if exp d <? exp_min
      then
        let q1 := round_half_even c (exp_min - exp d) in
        let q2 := if q1 =? 10 ^ prec then q1 / 10 else q1 in
        let e2 := if q1 =? 10 ^ prec then exp_min + 1 else exp_min in
        if Etop <? e2 then inl Overflow
        else inr (mkDecimal (Z.sgn (coef d) * q2) e2)
      else inr d.

(** Both coefficients written at the smaller of the two exponents. *)
Definition align (a b : Decimal) : Z * Z * Z :=
  let m := Z.min (exp a) (exp b) in
  (coef a * 10 ^ (exp a - m), coef b * 10 ^ (exp b - m), m).

(** Comparison is by value and exact: the context plays no part in it. *)
Definition dec_compare (a b : Decimal) : comparison :=
  let '(x, y, _) := align a b in x ?= y.

Definition dec_ltb (a b : Decimal) : bool :=
  match dec_compare a b with Lt => true | _ => false end.

Definition dec_leb (a b : Decimal) : bool :=
  match dec_compare a b with Gt => false | _ => true end.

Definition dec_gtb (a b : Decimal) : bool := dec_ltb b a.

Definition dec_lt (a b : Decimal) : Prop := dec_compare a b = Lt.
Definition dec_le (a b : Decimal) : Prop := dec_compare a b <> Gt.


(** The exact sum, at the smaller exponent, before the context rounds it. *)
Definition exact_add (a b : Decimal) : Decimal :=
  let '(x, y, m) := align a b in mkDecimal (x + y) m.

(** [-a] for the constants of the program, which the context leaves as
    they are. *)
Definition dec_neg (a : Decimal) : Decimal := mkDecimal (- coef a) (exp a).

(** [a + b], [a - b] and [a * b]: the exact result, fitted by [_fix]. *)
Definition dec_add (a b : Decimal) : Signal + Decimal :=
  fix_ (exact_add a b).

Definition dec_sub (a b : Decimal) : Signal + Decimal :=
  dec_add a (dec_neg b).

Definition dec_mul (a b : Decimal) : Signal + Decimal :=
  fix_ (mkDecimal (coef a * coef b) (exp a + exp b)).

(** An exact quotient moves towards the ideal exponent by dropping
    trailing zeros. *)
Fixpoint strip_zeros (fuel : nat) (q e : Z) : Z * Z :=
  match fuel with
  | O => (q, e)
  | S f => if q mod 10 =? 0 then strip_zeros f (q / 10) (e + 1) else (q, e)
  end.

(** [a / b] ([Decimal.__truediv__]): a zero divisor raises; otherwise the
    quotient is computed to [prec + 1] digits or more, a non-zero
    remainder is kept as a sticky last digit, and [_fix] fits the result.
    The only divisor in this program is the constant 12. *)
Definition dec_div (a b : Decimal) : Signal + Decimal :=
  let sign := Z.sgn (coef a) * Z.sgn (coef b) in
  let x := Z.abs (coef a) in
  let y := Z.abs (coef b) in
  if y =? 0
  then inl (if x =? 0 then InvalidOperation else DivisionByZero)
  else if x =? 0 then fix_ (mkDecimal 0 (exp a - exp b))
  else
    let shift := ndigits y - ndigits x + prec + 1 in
    let e := exp a - exp b - shift in
    let '(q, r) := if 0 <=? shift
                   then Z.div_eucl (x * 10 ^ shift) y
                   else Z.div_eucl x (y * 10 ^ (- shift)) in
    if r =? 0
    then let '(q', e') := strip_zeros (Z.to_nat (exp a - exp b - e)) q e in
         fix_ (mkDecimal (sign * q') e')
    else fix_ (mkDecimal (sign * (if q mod 5 =? 0 then q + 1 else q)) e).

(** [d.quantize(Decimal(1).scaleb(-places), context)] in a copy of the
    context with [digits] digits: the number written with [places] digits
    after the point, rounded half to even; InvalidOperation when that
    takes more than [digits] digits. *)
Definition quantize (digits places : Z) (d : Decimal) : Signal + Decimal :=
  let c := Z.abs (coef d) in
  if c =? 0 then inr (mkDecimal 0 (- places))
  else
    let adjusted := ndigits c + exp d - 1 in
    if (Emax <? adjusted) || (digits <? adjusted + places + 1)
    then inl InvalidOperation
    else
      let q := if - places <=? exp d
               then c * 10 ^ (exp d + places)
               else round_half_even c (- places - exp d) in
      if 10 ^ digits <=? q then inl InvalidOperation
      else inr (mkDecimal (Z.sgn (coef d) * q) (- places)).


(** *** Decimal literals

    [Decimal('...')] for the plain literals of the program: an optional
    minus sign, digits, and an optional point followed by digits. *)

Definition digit_of_ascii (c : ascii) : option Z :=
  let n := Z.of_nat (nat_of_ascii c) in
  if (48 <=? n) && (n <=? 57) then Some (n - 48) else None.

(** [parse_digits s seen_point c e]: [c] is the coefficient read so far
    and [e] the exponent it has earned from the digits after the point. *)
Fixpoint parse_digits (s : string) (seen_point : bool) (c e : Z)
  : option Decimal :=
  match s with
  | EmptyString => Some (mkDecimal c e)
  | String ch rest =>
      if Ascii.eqb ch "."%char
      then if seen_point then None else parse_digits rest true c e
      else match digit_of_ascii ch with
           | Some v => parse_digits rest seen_point (10 * c + v)
                         (if seen_point then e - 1 else e)
           | None => None
           end
  end.

Definition Decimal_of_string (s : string) : option Decimal :=
  match s with
  | EmptyString => None
  | String ch rest =>
      if Ascii.eqb ch "-"%char
      then option_map dec_neg (parse_digits rest false 0 0)
      else parse_digits s false 0 0
  end.

(** A literal of the source text.  A malformed literal would read as 0;
    every literal in this file is well formed. *)
Definition dec (s : string) : Decimal :=
  match Decimal_of_string s with
  | Some d => d
  | None => mkDecimal 0 0
  end.

(** [Decimal(n)] for a Python int: exponent 0. *)
Definition Decimal_of_int (n : Z) : Decimal := mkDecimal n 0.

(** *** Values and fields

    A value of [DecimalField(max_digits, decimal_places)]: at most
    [decimal_places] digits after the point and at most
    [max_digits - decimal_places] digits before it. *)
Definition in_field (max_digits decimal_places : Z) (d : Decimal) : Prop :=
  - decimal_places <= exp d /\
  Z.abs (coef d) * 10 ^ (exp d + decimal_places) < 10 ^ max_digits.

(** The number a decimal stands for. *)
Definition value (d : Decimal) : Q :=
  (inject_Z (coef d) * inject_Z 10 ^ exp d)%Q.

(** The coefficient of a decimal written with [s] digits after the point,
    for a decimal that has no more than [s] of them. *)
Definition scaled (s : Z) (d : Decimal) : Z := coef d * 10 ^ (exp d + s).

(** [django.db.backends.utils.format_number(value, max_digits,
    decimal_places)], with which [DecimalField.get_db_prep_save] prepares
    a value for the database (Django's default backend among others): the
    value is quantized in a context of [max_digits] digits, and that is
    what the row reads back as. *)
Definition format_number (max_digits decimal_places : Z) (d : Decimal)
  : Signal + Decimal :=
  quantize max_digits decimal_places d.

(* ===================================================================== *)
(** ** The object model *)
(* ===================================================================== *)

Open Scope string_scope.

(** [Account.SAVINGS] and [Account.CURRENT]; the subclass of an account
    object is read off its [account_type], which [__init__] sets. *)
Inductive AccountType : Type := SAVINGS | CURRENT.

(** What the [balance] attribute of an account object can hold: a
    [Decimal], as on every object built with one or loaded from its table,
    or a Python float, as on an object built without a balance, whose
    field default is the float literal [0.00].  A float stands here for
    the number it holds. *)
Inductive Number : Type :=
  | Dec (d : Decimal)
  | Float (x : Q).

(** The fields of [Account] that the methods read or write, for a balance
    of type [B]. *)
Record AccountOf (B : Type) : Type := mkAccount {
  account_number : string;
  account_type : AccountType;
  balance : B;
  is_active : bool
}.

Arguments mkAccount {B}.
Arguments account_number {B}.
Arguments account_type {B}.
Arguments balance {B}.
Arguments is_active {B}.

(** An account object in memory. *)
Definition Account : Type := AccountOf Number.

(** An account as its table holds it and as a query returns it: the
    balance is a [Decimal]. *)
Abbreviation AccountRow := (AccountOf Decimal) (only parsing).

(** [Account.balance = models.DecimalField(..., default=0.00)]: the default
    is a float. *)
Definition balance_default : Number := Float 0.

Inductive TransactionType : Type :=
  DEPOSIT | WITHDRAWAL | TRANSFER_IN | TRANSFER_OUT | FEE.

(** A row of [Transaction], as the table holds it.  The two foreign keys
    hold the number of the account they point to; [timestamp] is left out,
    the position of the row in the table gives the order of creation. *)
Record Transaction : Type := mkTransaction {
  transaction_id : string;
  savings_account : option string;
  current_account : option string;
  transaction_type : TransactionType;
  amount : Decimal;
  balance_after : Decimal;
  description : string
}.

Inductive Exception : Type :=
  | ValueError (msg : string)
  | TypeError (msg : string)
  | NotImplementedError (msg : string)
  | AttributeError (msg : string)
  | IntegrityError (msg : string)
  | DecimalException (signal : Signal).

(** The messages of the [ValueError]s the methods raise, under the names
    the specification gives to the failures. *)
Definition InvalidAmount_deposit : Exception :=
  ValueError "Deposit amount must be positive".
Definition InvalidAmount_withdraw : Exception :=
  ValueError "Withdrawal amount must be positive".
Definition LimitExceeded : Exception :=
  ValueError "Daily withdrawal limit is 50000.00".
Definition InsufficientBalance : Exception :=
  ValueError "Insufficient balance. Minimum balance required: 500.00".
Definition OverdraftExceeded : Exception :=
  ValueError "Overdraft limit exceeded. Limit: 10000.00".
Definition NegativeBalance : Exception :=
  ValueError "Balance cannot be negative".

(** A float on the left of a [Decimal]: neither type implements the
    operator. *)
Definition unsupported_operand (op : string) : Exception :=
  TypeError ("unsupported operand type(s) for " ++ op
             ++ ": 'float' and 'decimal.Decimal'").

(** The unique index of [Transaction.transaction_id] refuses a row.  (The
    text of the message depends on the database.) *)
Definition duplicate_transaction_id : Exception :=
  IntegrityError
    "UNIQUE constraint failed: accounts_transaction.transaction_id".

(** A trapped signal is an exception. *)
Definition trapped {A : Type} (r : Signal + A) : Exception + A :=
  match r with
  | inl s => inl (DecimalException s)
  | inr a => inr a
  end.

(** [balance + d], [balance - d] and [balance * d] for the balance of an
    account object and a [Decimal]; [op] is the operator as the message of
    the [TypeError] prints it. *)
Definition number_add (op : string) (b : Number) (d : Decimal)
  : Exception + Decimal :=
  match b with
  | Dec x => trapped (dec_add x d)
  | Float _ => inl (unsupported_operand op)
  end.

Definition number_sub (op : string) (b : Number) (d : Decimal)
  : Exception + Decimal :=
  match b with
  | Dec x => trapped (dec_sub x d)
  | Float _ => inl (unsupported_operand op)
  end.

Definition number_mul (op : string) (b : Number) (d : Decimal)
  : Exception + Decimal :=
  match b with
  | Dec x => trapped (dec_mul x d)
  | Float _ => inl (unsupported_operand op)
  end.

(** The number a balance stands for. *)
Definition number_value (b : Number) : Q :=
  match b with
  | Dec d => value d
  | Float x => x
  end.

(** The module [random]: a fixed sequence of draws and a cursor into it.
    Each draw selects an index into the population. *)
Record Rng : Type := mkRng { stream : nat -> nat; cursor : nat }.

(** [random.choices(population, k=k)]: [k] picks with replacement. *)
Definition random_choices {A : Type} (population : list A) (default : A)
    (k : nat) (r : Rng) : list A * Rng :=
  (map (fun i => nth (stream r (cursor r + i) mod List.length population)%nat
                   population default)
       (seq 0 k),
   mkRng (stream r) (cursor r + k)).

(** [string.digits] *)
Definition string_digits : list ascii :=
  list_ascii_of_string "0123456789".

(** What a method call on an account object can see and change: the
    object itself; the rows of the [Transaction] table that point to it,
    oldest first; the [transaction_id]s of the other rows of that table;
    and the random source. *)
Record World : Type := mkWorld {
  self : Account;
  transactions : list Transaction;
  other_ids : list string;
  rng : Rng
}.

(** The [transaction_id]s the table holds. *)
Definition used_ids (w : World) : list string :=
  (map transaction_id (transactions w) ++ other_ids w)%list.

(** A method body: it returns or raises, and in both cases leaves a world
    behind.  An exception does not undo the assignments and the writes
    made before it: no method runs inside [transaction.atomic]. *)
Definition M (A : Type) : Type := World -> (Exception + A) * World.

Definition ret {A : Type} (a : A) : M A := fun w => (inr a, w).

Definition raise {A : Type} (e : Exception) : M A := fun w => (inl e, w).

Definition bind {A B : Type} (m : M A) (k : A -> M B) : M B :=
  fun w =>
    match m w with
    | (inl e, w') => (inl e, w')
    | (inr a, w') => k a w'
    end.

Declare Scope method_scope.
Delimit Scope method_scope with method.
Notation "x <- m ;; k" := (bind m (fun x => k))
  (at level 61, m at next level, right associativity) : method_scope.
Notation "m ;; k" := (bind m (fun _ => k))
  (at level 61, right associativity) : method_scope.
Open Scope method_scope.

(** An expression that returns or raises and touches nothing. *)
Definition lift {A : Type} (r : Exception + A) : M A := fun w => (r, w).

Definition get_self : M Account := fun w => (inr (self w), w).

Definition put_self (a : Account) : M unit :=
  fun w => (inr tt, mkWorld a (transactions w) (other_ids w) (rng w)).

Definition with_balance {B B' : Type} (b : B') (a : AccountOf B)
  : AccountOf B' :=
  mkAccount (account_number a) (account_type a) b (is_active a).

Definition with_account_number {B : Type} (n : string) (a : AccountOf B)
  : AccountOf B :=
  mkAccount n (account_type a) (balance a) (is_active a).

Definition with_active {B : Type} (f : bool) (a : AccountOf B)
  : AccountOf B :=
  mkAccount (account_number a) (account_type a) (balance a) f.

(** Run a function of the random source inside a method. *)
Definition with_rng {A : Type} (f : Rng -> A * Rng) : M A :=
  fun w =>
    (inr (fst (f (rng w))),
     mkWorld (self w) (transactions w) (other_ids w) (snd (f (rng w)))).

(* ===================================================================== *)
(** ** The methods of [models.py] *)
(* ===================================================================== *)

(** Class constants. *)
Definition SavingsAccount_MINIMUM_BALANCE : Decimal := dec "500.00".
Definition SavingsAccount_INTEREST_RATE : Decimal := dec "0.04".
Definition SavingsAccount_WITHDRAWAL_LIMIT : Decimal := dec "50000.00".
Definition CurrentAccount_MINIMUM_BALANCE : Decimal := dec "1000.00".
Definition CurrentAccount_OVERDRAFT_LIMIT : Decimal := dec "10000.00".
Definition CurrentAccount_TRANSACTION_FEE : Decimal := dec "10.00".

(** [Decimal(str(amount))] for an [amount] that is a [Decimal]: [str]
    prints every digit and the constructor reads them back unrounded. *)
Definition Decimal_str (amount : Decimal) : Decimal := amount.

(** [Account.generate_account_number] *)
Definition generate_account_number (r : Rng) : string * Rng :=
  let '(ds, r') := random_choices string_digits "0"%char 12 r in
  (string_of_list_ascii ds, r').

(** [Transaction.generate_transaction_id] *)
Definition generate_transaction_id (r : Rng) : string * Rng :=
  let '(ds, r') := random_choices string_digits "0"%char 10 r in
  ("TXN" ++ string_of_list_ascii ds, r').

(** [models.Model.save] of Django for an account: the row is written.  The
    write is taken to succeed and changes nothing of the object; the
    unique constraint of the table is the subject of [Db] below. *)
Definition super_save : M unit := ret tt.

(** The first two lines of [Account.save]: an account without a number
    gets a generated one, an account with a number keeps it. *)
Definition assign_account_number {B : Type} (a : AccountOf B) (r : Rng)
  : AccountOf B * Rng :=
  if account_number a =? ""
  then let '(n, r') := generate_account_number r in
       (with_account_number n a, r')
  else (a, r).

(** [Account.save] *)
Definition Account_save : M unit :=
  a <- get_self ;;
  a' <- with_rng (assign_account_number a) ;;
  put_self a' ;;
  super_save.

(** [Transaction.objects.create(...)]: build the row, let
    [Transaction.save] give it its [transaction_id], and insert it.  The
    two money columns are [DecimalField(max_digits=12, decimal_places=2)]:
    the row holds [amount] and [balance_after] written with two decimals,
    and a value that does not fit raises.  The insert is refused when the
    table already holds the [transaction_id]. *)
Definition Transaction_objects_create (sa ca : option string)
    (ty : TransactionType) (amt bal : Decimal) (descr : string) : M unit :=
  tid <- with_rng generate_transaction_id ;;
  amt' <- lift (trapped (format_number 12 2 amt)) ;;
  bal' <- lift (trapped (format_number 12 2 bal)) ;;
  fun w =>
    if existsb (String.eqb tid) (used_ids w)
    then (inl duplicate_transaction_id, w)
    else
      (inr tt,
       mkWorld (self w)
         (transactions w ++ [mkTransaction tid sa ca ty amt' bal' descr])%list
         (other_ids w) (rng w)).


(** [Account.set_balance] *)
Definition set_balance (amount : Decimal) : M unit :=
  if dec_ltb amount (Decimal_of_int 0)
  then raise NegativeBalance
  else
    a <- get_self ;;
    put_self (with_balance (Dec amount) a) ;;
    Account_save.

(** [SavingsAccount.deposit].  In the last call [b] is [self.balance],
    which the assignment has just set. *)
Definition SavingsAccount_deposit (amount : Decimal) : M bool :=
  if dec_leb amount (Decimal_of_int 0)
  then raise InvalidAmount_deposit
  else
    a <- get_self ;;
    b <- lift (number_add "+=" (balance a) (Decimal_str amount)) ;;
    put_self (with_balance (Dec b) a) ;;
    Account_save ;;
    a <- get_self ;;
    Transaction_objects_create (Some (account_number a)) None
      DEPOSIT amount b
      ("Deposit to " ++ account_number a) ;;
    ret true.

(** [SavingsAccount.withdraw] *)
Definition SavingsAccount_withdraw (amount0 : Decimal) : M bool :=
  let amount := Decimal_str amount0 in
  if dec_leb amount (Decimal_of_int 0)
  then raise InvalidAmount_withdraw
  else if dec_gtb amount SavingsAccount_WITHDRAWAL_LIMIT
  then raise LimitExceeded
  else
    a <- get_self ;;
    d <- lift (number_sub "-" (balance a) amount) ;;
    if dec_ltb d SavingsAccount_MINIMUM_BALANCE
    then raise InsufficientBalance
    else
      b <- lift (number_sub "-=" (balance a) amount) ;;
      put_self (with_balance (Dec b) a) ;;
      Account_save ;;
      a <- get_self ;;
      Transaction_objects_create (Some (account_number a)) None
        WITHDRAWAL amount b
        ("Withdrawal from " ++ account_number a) ;;
      ret true.

(** [SavingsAccount.get_minimum_balance] *)
Definition SavingsAccount_get_minimum_balance : M Decimal :=
  ret SavingsAccount_MINIMUM_BALANCE.

(** [SavingsAccount.calculate_interest]; [self.deposit] is the method of
    the class, [SavingsAccount.deposit]. *)
Definition calculate_interest : M Decimal :=
  a <- get_self ;;
  p <- lift (number_mul "*" (balance a) SavingsAccount_INTEREST_RATE) ;;
  interest <- lift (trapped (dec_div p (Decimal_of_int 12))) ;;
  SavingsAccount_deposit interest ;;
  ret interest.

(** [CurrentAccount.deposit] *)
Definition CurrentAccount_deposit (amount : Decimal) : M bool :=
  if dec_leb amount (Decimal_of_int 0)
  then raise InvalidAmount_deposit
  else
    a <- get_self ;;
    b <- lift (number_add "+=" (balance a) (Decimal_str amount)) ;;
    put_self (with_balance (Dec b) a) ;;
    Account_save ;;
    a <- get_self ;;
    Transaction_objects_create None (Some (account_number a))
      DEPOSIT amount b
      ("Deposit to " ++ account_number a) ;;
    ret true.

(** [CurrentAccount.withdraw] *)
Definition CurrentAccount_withdraw (amount0 : Decimal) : M bool :=
  let amount := Decimal_str amount0 in
  if dec_leb amount (Decimal_of_int 0)
  then raise InvalidAmount_withdraw
  else
    a <- get_self ;;
    d <- lift (number_sub "-" (balance a) amount) ;;
    if dec_ltb d (dec_neg CurrentAccount_OVERDRAFT_LIMIT)
    then raise OverdraftExceeded
    else
      total_deduction <-
        lift (trapped (dec_add amount CurrentAccount_TRANSACTION_FEE)) ;;
      b <- lift (number_sub "-=" (balance a) total_deduction) ;;
      put_self (with_balance (Dec b) a) ;;
      Account_save ;;
      a <- get_self ;;
      Transaction_objects_create None (Some (account_number a))
        WITHDRAWAL amount b
        ("Withdrawal from " ++ account_number a) ;;
      Transaction_objects_create None (Some (account_number a))
        FEE CurrentAccount_TRANSACTION_FEE b
        "Transaction fee" ;;
      ret true.

(** [CurrentAccount.get_minimum_balance] *)
Definition CurrentAccount_get_minimum_balance : M Decimal :=
  ret CurrentAccount_MINIMUM_BALANCE.

(** [account.deposit(amount)] and [account.withdraw(amount)]: the call
    goes to the method of the object's class. *)
Definition deposit (amount : Decimal) : M bool :=
  a <- get_self ;;
  match account_type a with
  | SAVINGS => SavingsAccount_deposit amount
  | CURRENT => CurrentAccount_deposit amount
  end.

Definition withdraw (amount : Decimal) : M bool :=
  a <- get_self ;;
  match account_type a with
  | SAVINGS => SavingsAccount_withdraw amount
  | CURRENT => CurrentAccount_withdraw amount
  end.

Definition get_minimum_balance : M Decimal :=
  a <- get_self ;;
  match account_type a with
  | SAVINGS => SavingsAccount_get_minimum_balance
  | CURRENT => CurrentAccount_get_minimum_balance
  end.

(* ===================================================================== *)
(** ** The account tables *)
(* ===================================================================== *)

(** [Account] is abstract ([class Meta: abstract = True]), so it has no
    table of its own: [SavingsAccount] and [CurrentAccount] each have their
    table, and [unique=True] on [account_number] is an index of each table
    on its own.  The accounts of this section are built with a [Decimal]
    as their opening balance. *)
Module Db.

Record Tables : Type := mkTables {
  savings_rows : list AccountRow;
  current_rows : list AccountRow
}.

Definition rows_of (ty : AccountType) (db : Tables) : list AccountRow :=
  match ty with
  | SAVINGS => savings_rows db
  | CURRENT => current_rows db
  end.

Definition all_rows (db : Tables) : list AccountRow :=
  (savings_rows db ++ current_rows db)%list.

Definition number_taken (n : string) (rows : list AccountRow) : bool :=
  existsb (fun a => account_number a =? n) rows.

(** [models.Model.save] for an object that has no row yet: the INSERT is
    refused when the table already holds the account number.  (The text
    of the message depends on the database.) *)
Definition insert_row (a : AccountRow) (db : Tables) : Exception + Tables :=
  if number_taken (account_number a) (rows_of (account_type a) db)
  then inl (IntegrityError "UNIQUE constraint failed: account_number")
  else inr match account_type a with
           | SAVINGS => mkTables (savings_rows db ++ [a])%list
                                 (current_rows db)
           | CURRENT => mkTables (savings_rows db)
                                 (current_rows db ++ [a])%list
           end.

(** [Account.save] on a new object: the number is assigned, then the row
    is inserted.  The random source moves on even when the insert is
    refused. *)
Definition Account_save_new (a : AccountRow) (r : Rng) (db : Tables)
  : (Exception + AccountRow) * Rng * Tables :=
  let '(a', r') := assign_account_number a r in
  match insert_row a' db with
  | inl e => (inl e, r', db)
  | inr db' => (inr a', r', db')
  end.

(** A new account object of a subclass: no number yet, active. *)
Definition new_account (ty : AccountType) (initial : Decimal) : AccountRow :=
  mkAccount "" ty initial true.

Definition empty : Tables := mkTables [] [].

End Db.

(* ===================================================================== *)
(** ** Histories, and the definitions the properties are stated with *)
(* ===================================================================== *)

(** The [balance_after] of the most recent row of an account, or the
    balance the account was opened with when it has no row. *)
Definition last_balance_after (seed : Decimal) (ts : list Transaction)
  : Decimal :=
  last (map balance_after ts) seed.

(** The balance of the object agrees with its history: Python's [==]
    between the two numbers. *)
Definition ledger_consistent (seed : Decimal) (w : World) : Prop :=
  (number_value (balance (self w))
   == value (last_balance_after seed (transactions w)))%Q.

(** The calls a customer or the scheduler makes on an account. *)
Inductive Operation : Type :=
  | Deposit (amount : Decimal)
  | Withdraw (amount : Decimal)
  | Interest.

(** [calculate_interest] exists on [SavingsAccount] only. *)
Definition perform (op : Operation) : M unit :=
  match op with
  | Deposit amount => deposit amount ;; ret tt
  | Withdraw amount => withdraw amount ;; ret tt
  | Interest =>
      a <- get_self ;;
      match account_type a with
      | SAVINGS => calculate_interest ;; ret tt
      | CURRENT =>
          raise (AttributeError
            "'CurrentAccount' object has no attribute 'calculate_interest'")
      end
  end.

(** A sequence of calls; a call that raises ends that call only. *)
Fixpoint run (ops : list Operation) (w : World) : World :=
  match ops with
  | [] => w
  | op :: rest => run rest (snd (perform op w))
  end.

(** The call has returned. *)
Definition returned {A : Type} (r : (Exception + A) * World) : bool :=
  match fst r with
  | inr _ => true
  | inl _ => false
  end.

(** Every call of the sequence returns. *)
Fixpoint successful (ops : list Operation) (w : World) : bool :=
  match ops with
  | [] => true
  | op :: rest =>
      returned (perform op w) && successful rest (snd (perform op w))
  end.

(** A decimal with at most two digits after the point. *)
Definition two_places (d : Decimal) : Prop := (-2 <= exp d)%Z.

(** A balance that, when it is a [Decimal], has at most two digits after
    the point. *)
Definition two_place_balance (b : Number) : Prop :=
  match b with
  | Dec d => two_places d
  | Float _ => True
  end.

(** A deposit or a withdrawal of an amount with at most two digits after
    the point. *)
Definition two_place_call (op : Operation) : Prop :=
  match op with
  | Deposit amount => two_places amount
  | Withdraw amount => two_places amount
  | Interest => False
  end.

(** The same world with the [is_active] flag of the account set. *)
Definition world_with_active (f : bool) (w : World) : World :=
  mkWorld (with_active f (self w)) (transactions w) (other_ids w) (rng w).

(** A value of the money fields of the models,
    [DecimalField(max_digits=12, decimal_places=2)]: the declaration of
    [Account.balance] and of [Transaction.amount]. *)
Definition money (d : Decimal) : Prop := in_field 12 2 d.

(** The decimals on which the sums and differences of the methods stay
    within the 28 digits of the context, and so are exact: at most 16
    digits after the point and at most 10 before it.  Every money value
    is one. *)
Definition plain (d : Decimal) : Prop := in_field 26 16 d.

(** A money column as a row holds it: exactly two digits after the point
    and at most twelve digits in all. *)
Definition stored_money (d : Decimal) : Prop :=
  exp d = (-2)%Z /\ (Z.abs (coef d) < 10 ^ 12)%Z.


(** The monthly interest [calculate_interest] computes for a balance. *)
Definition monthly_interest (b : Decimal) : Signal + Decimal :=
  match dec_mul b SavingsAccount_INTEREST_RATE with
  | inl s => inl s
  | inr p => dec_div p (Decimal_of_int 12)
  end.

(** The world after the assignment [self.balance = b] and [self.save()]. *)
Definition saved_with (b : Decimal) (w : World) : World :=
  mkWorld
    (fst (assign_account_number (with_balance (Dec b) (self w)) (rng w)))
    (transactions w) (other_ids w)
    (snd (assign_account_number (with_balance (Dec b) (self w)) (rng w))).

(** A row that [create] has written. *)
Definition row_written (sa ca : option string) (ty : TransactionType)
    (amt bal : Decimal) (descr : string) (w : World) (e : Transaction)
  : Prop :=
  exists qa qb,
    format_number 12 2 amt = inr qa /\ format_number 12 2 bal = inr qb /\
    ~ In (fst (generate_transaction_id (rng w))) (used_ids w) /\
    e = mkTransaction (fst (generate_transaction_id (rng w)))
          sa ca ty qa qb descr.

(** An exception that is not one of the [ValueError]s of the checks. *)
Definition not_ValueError (e : Exception) : Prop :=
  forall msg, e <> ValueError msg.




(** *** Sample worlds *)

(** A random source whose n-th draw is n. *)
Definition counting_rng : Rng := mkRng (fun n => n) 0%nat.

(** A random source that always draws 0. *)
Definition stuck_rng : Rng := mkRng (fun _ => 0%nat) 0%nat.

(** A random source whose k-th run of ten draws spells the number k, its
    last digit first: the transaction ids it gives are TXN0000000000,
    TXN1000000000, TXN2000000000 and so on, all different. *)
Definition serial_rng : Rng :=
  mkRng (fun n => N.to_nat ((N.of_nat n / 10 / 10 ^ (N.of_nat n mod 10))
                            mod 10)%N)
        0%nat.

(** Accounts that have a row in their table and no transaction yet, in a
    table without other transactions. *)
Definition savings_world (b : Decimal) (active : bool) : World :=
  mkWorld (mkAccount "100000000001" SAVINGS (Dec b) active) [] []
          serial_rng.

Definition current_world (b : Decimal) (active : bool) : World :=
  mkWorld (mkAccount "200000000002" CURRENT (Dec b) active) [] []
          serial_rng.

(** The same accounts when the random source repeats itself: every
    transaction id it gives is TXN0000000000. *)
Definition savings_world_repeating (b : Decimal) : World :=
  mkWorld (mkAccount "100000000001" SAVINGS (Dec b) true) [] [] stuck_rng.

Definition current_world_repeating (b : Decimal) : World :=
  mkWorld (mkAccount "200000000002" CURRENT (Dec b) true) [] [] stuck_rng.

(** An account object built without a balance: the attribute holds the
    default of the field. *)
Definition default_world (ty : AccountType) : World :=
  mkWorld (mkAccount "300000000003" ty balance_default true) [] []
          serial_rng.

(* ===================================================================== *)
(** ** The rest of [models.py], and the forms and the admin *)
(* ===================================================================== *)

(** [Transaction.account]: [self.savings_account or self.current_account].
    A model instance is truthy, so the savings account wins when it is
    there. *)
Definition Transaction_account (t : Transaction) : option string :=
  match savings_account t with
  | Some a => Some a
  | None => current_account t
  end.

(** [TransactionAdmin.get_account] *)
Definition TransactionAdmin_get_account (obj : Transaction) : string :=
  match Transaction_account obj with
  | Some n => n
  | None =>
      match current_account obj with
      | Some n => n
      | None => "N/A"
      end
  end.

(** [sum(acc.balance for acc in accounts)] over the rows of a query: the
    built-in starts from the integer 0, which the first addition turns
    into [Decimal(0)]. *)
Definition sum_balances (accounts : list AccountRow) : Signal + Decimal :=
  fold_left (fun total acc =>
               match total with
               | inl s => inl s
               | inr t => dec_add t (balance acc)
               end)
            accounts (inr (Decimal_of_int 0)).

(** [CustomerProfile.get_total_balance], given the savings and the current
    accounts of [self.user].  (With no active account at all Python
    returns the integer 0, here [Decimal(0)].) *)
Definition get_total_balance (savings_accounts current_accounts
    : list AccountRow) : Signal + Decimal :=
  let savings := filter is_active savings_accounts in
  let current := filter is_active current_accounts in
  match sum_balances savings with
  | inl s => inl s
  | inr s =>
      match sum_balances current with
      | inl c => inl c
      | inr c => dec_add s c
      end
  end.

(** [forms.ValidationError] *)
Inductive ValidationError : Type := mkValidationError (msg : string).

(** A [datetime.date]. *)
Record date : Type := mkDate { year : Z; month : Z; day : Z }.

(** [(a, b) < (c, d)] on tuples of integers. *)
Definition tuple_ltb (x y : Z * Z) : bool :=
  ((fst x <? fst y) || ((fst x =? fst y) && (snd x <? snd y)))%Z.

(** [RegistrationForm.clean_date_of_birth], given [date.today()]. *)
Definition clean_date_of_birth (today dob : date)
  : ValidationError + date :=
  let age := (year today - year dob
              - (if tuple_ltb (month today, day today) (month dob, day dob)
                 then 1 else 0))%Z in
  if (age <? 18)%Z
  then inl (mkValidationError
              "You must be at least 18 years old to register.")
  else inr dob.

(** [AccountCreationForm.clean_initial_deposit]; [account_type] is the raw
    value of the form data, absent or any string. *)
Definition clean_initial_deposit (account_type : option string)
    (deposit : Decimal) : ValidationError + Decimal :=
  if match account_type with Some t => t =? "savings" | None => false end
     && dec_ltb deposit (Decimal_of_int 500)
  then inl (mkValidationError
              "Minimum initial deposit for Savings Account is ₹500")
  else
    if match account_type with Some t => t =? "current" | None => false end
       && dec_ltb deposit (Decimal_of_int 1000)
    then inl (mkValidationError
                "Minimum initial deposit for Current Account is ₹1000")
    else inr deposit.

(** [DepositForm.clean_amount] *)
Definition DepositForm_clean_amount (amount : Decimal)
  : ValidationError + Decimal :=
  if dec_leb amount (Decimal_of_int 0)
  then inl (mkValidationError "Amount must be positive.")
  else if dec_gtb amount (Decimal_of_int 1000000)
  then inl (mkValidationError "Single deposit cannot exceed ₹10,00,000")
  else inr amount.

(** [WithdrawalForm.clean_amount] *)
Definition WithdrawalForm_clean_amount (amount : Decimal)
  : ValidationError + Decimal :=
  if dec_leb amount (Decimal_of_int 0)
  then inl (mkValidationError "Amount must be positive.")
  else inr amount.

(** [objects.filter(account_number=n, is_active=True).exists()] on a
    table. *)
Definition exists_active (n : string) (rows : list AccountRow) : bool :=
  existsb (fun a => (account_number a =? n) && is_active a) rows.

(** [TransferForm.clean_to_account] *)
Definition clean_to_account (account_number : string) (db : Db.Tables)
  : ValidationError + string :=
  let savings_exists := exists_active account_number (Db.savings_rows db) in
  let current_exists := exists_active account_number (Db.current_rows db) in
  if negb (savings_exists || current_exists)
  then inl (mkValidationError
              "Invalid account number or account not active.")
  else inr account_number.

(** [TransferForm.clean]: the two fields as [cleaned_data.get] gives them,
    [None] for a field that did not validate. *)
Definition TransferForm_clean (from_acc to_acc : option string)
  : ValidationError + (option string * option string) :=
  if match from_acc, to_acc with
     | Some f, Some t => f =? t
     | None, None => true
     | _, _ => false
     end
  then inl (mkValidationError "Cannot transfer to the same account.")
  else inr (from_acc, to_acc).

(** *** What the properties of the rows are stated with *)

(** A decimal digit. *)
Definition is_digit (c : ascii) : Prop := In c string_digits.

(** The shape of a transaction id: TXN and ten digits. *)
Definition transaction_id_shape (s : string) : Prop :=
  exists ds : list ascii,
    s = "TXN" ++ string_of_list_ascii ds /\
    List.length ds = 10%nat /\ Forall is_digit ds.

(** A row as the methods of account [a] write them. *)
Definition written_for (a : Account) (e : Transaction) : Prop :=
  match account_type a with
  | SAVINGS => savings_account e = Some (account_number a) /\
               current_account e = None
  | CURRENT => current_account e = Some (account_number a) /\
               savings_account e = None
  end /\
  stored_money (amount e) /\ (0 <= coef (amount e))%Z /\
  stored_money (balance_after e) /\
  (transaction_type e = DEPOSIT \/ transaction_type e = WITHDRAWAL \/
   transaction_type e = FEE) /\
  transaction_id_shape (transaction_id e).

(** What a call leaves of the account and of its rows, whether it returns
    or raises: the class and the [is_active] flag stay, an account that
    has a number keeps it, and rows written for the account may have been
    appended, which takes an account that has a number. *)
Definition served (w w' : World) : Prop :=
  account_type (self w') = account_type (self w) /\
  is_active (self w') = is_active (self w) /\
  (account_number (self w) <> "" ->
   account_number (self w') = account_number (self w)) /\
  exists rows,
    transactions w' = (transactions w ++ rows)%list /\
    Forall (written_for (self w')) rows /\
    (rows <> [] -> account_number (self w') <> "").

(** The sum of the values of the balances of a list of accounts. *)
Definition sum_values (accounts : list AccountRow) : Q :=
  fold_right (fun acc q => (value (balance acc) + q)%Q) 0%Q accounts.

(** Dates in the order of the calendar. *)
Definition date_le (d1 d2 : date) : Prop :=
  (year d1 < year d2 \/
   (year d1 = year d2 /\
    (month d1 < month d2 \/ (month d1 = month d2 /\ day d1 <= day d2))))%Z.

(** The day someone born on [dob] turns 18, as a triple. *)
Definition eighteenth_birthday (dob : date) : date :=
  mkDate (year dob + 18)%Z (month dob) (day dob).
(* ===================================================================== *)
(** ** Facts about [Decimal] *)
(* ===================================================================== *)

Section DecimalFacts.

Local Open Scope Z_scope.

(** *** Comparison *)

Lemma pow10_pos (n : Z) : 0 <= n -> 0 < 10 ^ n.
Proof. intro H. apply Z.pow_pos_nonneg; lia. Qed.


Lemma dec_compare_antisym (a b : Decimal) :
  dec_compare b a = CompOpp (dec_compare a b).
Proof.
  unfold dec_compare, align. rewrite (Z.min_comm (exp b) (exp a)).
  apply Z.compare_antisym.
Qed.

(** Comparing with the integer 0 looks at the sign of the coefficient. *)
Lemma dec_compare_zero (a : Decimal) :
  dec_compare a (Decimal_of_int 0) = (coef a ?= 0).
Proof.
  unfold dec_compare, align, Decimal_of_int; cbn [coef exp].
  rewrite Z.mul_0_l.
  assert (H : 0 < 10 ^ (exp a - Z.min (exp a) 0)) by (apply pow10_pos; lia).
  destruct (Z.compare_spec (coef a) 0) as [E | E | E].
  - subst. rewrite E. reflexivity.
  - apply Z.compare_lt_iff. nia.
  - apply Z.compare_gt_iff. nia.
Qed.

Lemma dec_leb_zero (a : Decimal) :
  dec_leb a (Decimal_of_int 0) = (coef a <=? 0).
Proof.
  unfold dec_leb. rewrite dec_compare_zero. unfold Z.leb. reflexivity.
Qed.

Lemma dec_lt_zero (a : Decimal) :
  dec_lt (Decimal_of_int 0) a <-> 0 < coef a.
Proof.
  unfold dec_lt. rewrite dec_compare_antisym, dec_compare_zero.
  destruct (Z.compare_spec (coef a) 0); cbn; split; intro; try lia;
    congruence.
Qed.

Lemma dec_ltb_lt (a b : Decimal) : dec_ltb a b = true <-> dec_lt a b.
Proof.
  unfold dec_ltb, dec_lt. destruct (dec_compare a b); split; intro;
    congruence.
Qed.

Lemma dec_ltb_nlt (a b : Decimal) : dec_ltb a b = false <-> ~ dec_lt a b.
Proof.
  rewrite <- dec_ltb_lt. destruct (dec_ltb a b); split; intro; congruence.
Qed.

Lemma dec_leb_le (a b : Decimal) : dec_leb a b = true <-> dec_le a b.
Proof.
  unfold dec_leb, dec_le. destruct (dec_compare a b); split; intro;
    congruence.
Qed.

Lemma not_le_lt_zero (amt : Decimal) :
  dec_leb amt (Decimal_of_int 0) = false <-> dec_lt (Decimal_of_int 0) amt.
Proof.
  rewrite dec_leb_zero, dec_lt_zero. apply Z.leb_gt.
Qed.

Lemma positive_leb (amt : Decimal) :
  dec_lt (Decimal_of_int 0) amt -> dec_leb amt (Decimal_of_int 0) = false.
Proof.
  intro H. rewrite dec_leb_zero. apply dec_lt_zero in H.
  apply Z.leb_gt. exact H.
Qed.

Lemma dec_lt_pos (a b : Decimal) :
  (0 < coef a)%Z -> dec_lt a b -> (0 < coef b)%Z.
Proof.
  intros Ha H. unfold dec_lt, dec_compare, align in H.
  cbv beta iota zeta in H.
  assert (Pa : (0 < 10 ^ (exp a - Z.min (exp a) (exp b)))%Z)
    by (apply pow10_pos; lia).
  assert (Pb : (0 < 10 ^ (exp b - Z.min (exp a) (exp b)))%Z)
    by (apply pow10_pos; lia).
  set (pa := (10 ^ (exp a - Z.min (exp a) (exp b)))%Z) in *.
  set (pb := (10 ^ (exp b - Z.min (exp a) (exp b)))%Z) in *.
  destruct (Z.lt_ge_cases 0 (coef b)) as [P | N]; [exact P |].
  assert (0 < coef a * pa)%Z by (apply Z.mul_pos_pos; assumption).
  assert (coef b * pb <= 0)%Z by (apply Z.mul_nonpos_nonneg; lia).
  change (coef a * pa < coef b * pb)%Z in H. lia.
Qed.

(** *** The value of a decimal *)

Lemma ten_nonzero : ~ (inject_Z 10 == 0)%Q.
Proof. intro H. discriminate H. Qed.

Lemma Qpow10_pos (z : Z) : (0 < inject_Z 10 ^ z)%Q.
Proof. apply Qpower_0_lt. reflexivity. Qed.

(** Moving a power of ten between the coefficient and the exponent. *)
Lemma value_shift (c e k : Z) :
  0 <= k ->
  (inject_Z (c * 10 ^ k) * inject_Z 10 ^ e
   == inject_Z c * inject_Z 10 ^ (e + k))%Q.
Proof.
  intro Hk.
  rewrite inject_Z_mult, Zpower_Qpower by assumption.
  rewrite (Qpower_plus _ e k ten_nonzero). ring.
Qed.

Lemma value_align (a b : Decimal) :
  let m := Z.min (exp a) (exp b) in
  (value a == inject_Z (coef a * 10 ^ (exp a - m)) * inject_Z 10 ^ m)%Q /\
  (value b == inject_Z (coef b * 10 ^ (exp b - m)) * inject_Z 10 ^ m)%Q.
Proof.
  intro m. unfold value. split.
  - rewrite value_shift by lia.
    replace (m + (exp a - m)) with (exp a) by lia. reflexivity.
  - rewrite value_shift by lia.
    replace (m + (exp b - m)) with (exp b) by lia. reflexivity.
Qed.

(** The unrounded sum is the sum. *)
Lemma value_exact_add (a b : Decimal) :
  (value (exact_add a b) == value a + value b)%Q.
Proof.
  destruct (value_align a b) as [Ea Eb]. rewrite Ea, Eb.
  unfold exact_add, align, value; cbn [coef exp].
  rewrite inject_Z_plus. ring.
Qed.

Lemma value_neg (a : Decimal) : (value (dec_neg a) == - value a)%Q.
Proof.
  unfold value, dec_neg; cbn [coef exp]. rewrite inject_Z_opp. ring.
Qed.

Lemma Qcompare_mult_pos (p q t : Q) :
  (0 < t)%Q -> (p * t ?= q * t)%Q = (p ?= q)%Q.
Proof.
  intro Ht. destruct (Qcompare_spec p q) as [E | L | G].
  - apply Qeq_alt. rewrite E. reflexivity.
  - apply Qlt_alt. apply Qmult_lt_compat_r; assumption.
  - apply Qgt_alt. apply Qmult_lt_compat_r; assumption.
Qed.

Lemma Qcompare_inject_Z (x y : Z) :
  (inject_Z x ?= inject_Z y)%Q = (x ?= y).
Proof.
  unfold Qcompare, inject_Z; cbn. rewrite !Z.mul_1_r. reflexivity.
Qed.

(** Python's comparison of two decimals is the comparison of their
    values. *)
Lemma dec_compare_value (a b : Decimal) :
  dec_compare a b = (value a ?= value b)%Q.
Proof.
  destruct (value_align a b) as [Ea Eb]. rewrite Ea, Eb.
  rewrite Qcompare_mult_pos by apply Qpow10_pos.
  rewrite Qcompare_inject_Z. reflexivity.
Qed.

Lemma dec_lt_value (a b : Decimal) : dec_lt a b <-> (value a < value b)%Q.
Proof. unfold dec_lt. rewrite dec_compare_value. symmetry. apply Qlt_alt. Qed.

Lemma dec_le_value (a b : Decimal) : dec_le a b <-> (value a <= value b)%Q.
Proof. unfold dec_le. rewrite dec_compare_value. symmetry. apply Qle_alt. Qed.



(** *** The number of digits *)

Lemma ndigits_aux_spec (fuel : nat) :
  forall c, 1 <= c -> c < 2 ^ (Z.of_nat fuel + 1) ->
  1 <= ndigits_aux fuel c /\
  10 ^ (ndigits_aux fuel c - 1) <= c < 10 ^ ndigits_aux fuel c.
Proof.
  induction fuel as [| f IH]; intros c Hc Hb.
  - cbn in Hb. cbn [ndigits_aux]. cbn. lia.
  - cbn [ndigits_aux]. destruct (Z.ltb_spec c 10) as [S | L].
    + cbn. lia.
    + assert (Hq : 1 <= c / 10) by (apply Z.div_le_lower_bound; lia).
      assert (Hf : c / 10 < 2 ^ (Z.of_nat f + 1)).
      { apply Z.div_lt_upper_bound; [lia |].
        rewrite Nat2Z.inj_succ in Hb.
        replace (Z.succ (Z.of_nat f) + 1) with (Z.of_nat f + 1 + 1) in Hb
          by lia.
        rewrite Z.pow_add_r in Hb by lia.
        change (2 ^ 1) with 2 in Hb. lia. }
      destruct (IH (c / 10) Hq Hf) as (Hn & Hlo & Hhi).
      set (n := ndigits_aux f (c / 10)) in *.
      replace (1 + n - 1) with n by lia.
      assert (E1 : 10 ^ (1 + n) = 10 * 10 ^ n).
      { replace (1 + n) with (Z.succ n) by lia. apply Z.pow_succ_r. lia. }
      rewrite E1.
      pose proof (Z.div_mod c 10 ltac:(lia)) as Dm.
      pose proof (Z.mod_pos_bound c 10 ltac:(lia)) as Mb.
      assert (E2 : 10 ^ n = 10 * 10 ^ (n - 1)).
      { replace n with (Z.succ (n - 1)) at 1 by lia.
        apply Z.pow_succ_r. lia. }
      split; [lia |]. split; lia.
Qed.

Lemma ndigits_spec (c : Z) :
  1 <= c ->
  1 <= ndigits c /\ 10 ^ (ndigits c - 1) <= c < 10 ^ ndigits c.
Proof.
  intro Hc. unfold ndigits. rewrite (Z.abs_eq c) by lia.
  apply ndigits_aux_spec; [exact Hc |].
  rewrite Z2Nat.id by apply Z.log2_nonneg.
  replace (Z.log2 c + 1) with (Z.succ (Z.log2 c)) by lia.
  apply Z.log2_spec. lia.
Qed.

(** A number below [10 ^ m] has at most [m] digits. *)
Lemma ndigits_le (c m : Z) : 1 <= c -> c < 10 ^ m -> ndigits c <= m.
Proof.
  intros Hc Hm. destruct (ndigits_spec c Hc) as (Hn & Hlo & _).
  destruct (Z.le_gt_cases (ndigits c) m) as [L | G]; [exact L |].
  assert (10 ^ m <= 10 ^ (ndigits c - 1))
    by (apply Z.pow_le_mono_r; lia).
  lia.
Qed.

(** *** Rounding half to even *)

Lemma round_half_even_bounds (c k : Z) :
  0 <= c -> 0 <= k ->
  c / 10 ^ k <= round_half_even c k <= c / 10 ^ k + 1.
Proof.
  intros Hc Hk. unfold round_half_even.
  destruct (2 * (c mod 10 ^ k) ?= 10 ^ k); [| lia | lia].
  destruct (Z.even (c / 10 ^ k)); lia.
Qed.

Lemma round_half_even_nonneg (c k : Z) :
  0 <= c -> 0 <= k -> 0 <= round_half_even c k.
Proof.
  intros Hc Hk. pose proof (round_half_even_bounds c k Hc Hk).
  assert (0 < 10 ^ k) by (apply pow10_pos; exact Hk).
  assert (0 <= c / 10 ^ k) by (apply Z.div_pos; lia).
  lia.
Qed.

(** *** When the context leaves a result as it is *)

Lemma limits :
  Etiny = -1000026 /\ Etop = 999972 /\ Emax = 999999 /\ prec = 28.
Proof. repeat split. Qed.

(** A number that is not zero, has at most 28 digits and an exponent
    within the limits is returned as it is. *)
Lemma fix_within (d : Decimal) :
  coef d <> 0 ->
  Z.abs (coef d) < 10 ^ prec ->
  Etiny <= exp d -> exp d <= Etop ->
  fix_ d = inr d.
Proof.
  intros Hz Hc Hlo Hhi. unfold fix_.
  destruct (Z.eqb_spec (Z.abs (coef d)) 0) as [E | _]; [lia |].
  assert (Hn : ndigits (Z.abs (coef d)) <= prec)
    by (apply ndigits_le; lia).
  destruct (Z.ltb_spec Etop (ndigits (Z.abs (coef d)) + exp d - prec));
    [lia |].
  destruct (Z.ltb_spec (exp d)
              (Z.max (ndigits (Z.abs (coef d)) + exp d - prec) Etiny));
    [lia | reflexivity].
Qed.

(** A zero keeps its value, and its exponent when it is within the
    limits. *)
Lemma fix_zero (d : Decimal) :
  coef d = 0 ->
  fix_ d = inr (mkDecimal 0 (Z.min (Z.max (exp d) Etiny) Emax)).
Proof. intro H. unfold fix_. rewrite H. reflexivity. Qed.

Lemma scaled_neg (s : Z) (a : Decimal) :
  scaled s (dec_neg a) = - scaled s a.
Proof. unfold scaled, dec_neg; cbn [coef exp]. ring. Qed.

Lemma coef_le_scaled (s : Z) (a : Decimal) :
  - s <= exp a -> Z.abs (coef a) <= Z.abs (scaled s a).
Proof.
  intro H. unfold scaled. rewrite Z.abs_mul.
  assert (P : 0 < 10 ^ (exp a + s)) by (apply pow10_pos; lia).
  rewrite (Z.abs_eq (10 ^ (exp a + s))) by lia.
  assert (0 <= Z.abs (coef a)) by apply Z.abs_nonneg. nia.
Qed.

Lemma value_zero (e : Z) : (value (mkDecimal 0 e) == 0)%Q.
Proof. unfold value; cbn [coef exp]. ring. Qed.

(** A result written with at most [s] digits after the point, [s] between
    0 and 28, whose coefficient at that scale has at most 28 digits, comes
    out of [_fix] with the same value and the same scaled coefficient. *)
Lemma fix_exact (s : Z) (d : Decimal) :
  0 <= s <= prec ->
  - s <= exp d ->
  Z.abs (scaled s d) < 10 ^ prec ->
  exists d',
    fix_ d = inr d' /\
    scaled s d' = scaled s d /\ - s <= exp d' /\
    (value d' == value d)%Q.
Proof.
  intros Hs He Hc. destruct limits as (Ty & Tp & Mx & Pr).
  destruct (Z.eq_dec (coef d) 0) as [Z0 | NZ].
  - rewrite (fix_zero d Z0). eexists. split; [reflexivity |].
    unfold scaled; cbn [coef exp]. rewrite Z0.
    split; [ring |]. split; [lia |].
    rewrite value_zero. unfold value. rewrite Z0. ring.
  - exists d. split; [| split; [reflexivity | split; [exact He |
                                                     reflexivity]]].
    pose proof (coef_le_scaled s d He) as Hle.
    apply fix_within; try assumption; try lia.
    assert (P : 10 ^ (exp d + s) < 10 ^ prec).
    { unfold scaled in Hc. rewrite Z.abs_mul in Hc.
      assert (0 < 10 ^ (exp d + s)) by (apply pow10_pos; lia).
      rewrite (Z.abs_eq (10 ^ (exp d + s))) in Hc by lia.
      assert (1 <= Z.abs (coef d)) by lia. nia. }
    apply Z.pow_lt_mono_r_iff in P; lia.
Qed.

Lemma scaled_exact_add (s : Z) (a b : Decimal) :
  - s <= exp a -> - s <= exp b ->
  scaled s (exact_add a b) = scaled s a + scaled s b /\
  - s <= exp (exact_add a b).
Proof.
  intros Ha Hb. unfold exact_add, align, scaled; cbn [coef exp].
  split; [| lia].
  set (m := Z.min (exp a) (exp b)).
  rewrite Z.mul_add_distr_r, <- !Z.mul_assoc, <- !Z.pow_add_r by lia.
  f_equal; f_equal; f_equal; lia.
Qed.

(** A sum whose scaled coefficient has at most 28 digits is exact. *)
Lemma add_unrounded (s : Z) (a b : Decimal) :
  0 <= s <= prec ->
  - s <= exp a -> - s <= exp b ->
  Z.abs (scaled s a + scaled s b) < 10 ^ prec ->
  exists r,
    dec_add a b = inr r /\
    scaled s r = scaled s a + scaled s b /\ - s <= exp r /\
    (value r == value a + value b)%Q.
Proof.
  intros Hs Ha Hb Hc. destruct (scaled_exact_add s a b Ha Hb) as [Ec Ee].
  destruct (fix_exact s (exact_add a b)) as (r & E & Sr & Er & Vr);
    try assumption.
  { rewrite Ec. exact Hc. }
  exists r. unfold dec_add. split; [exact E |].
  split; [rewrite Sr; exact Ec |]. split; [exact Er |].
  rewrite Vr. apply value_exact_add.
Qed.

Lemma sub_unrounded (s : Z) (a b : Decimal) :
  0 <= s <= prec ->
  - s <= exp a -> - s <= exp b ->
  Z.abs (scaled s a - scaled s b) < 10 ^ prec ->
  exists r,
    dec_sub a b = inr r /\
    scaled s r = scaled s a - scaled s b /\ - s <= exp r /\
    (value r == value a - value b)%Q.
Proof.
  intros Hs Ha Hb Hc. unfold dec_sub.
  destruct (add_unrounded s a (dec_neg b)) as (r & E & Sr & Er & Vr);
    try assumption.
  { rewrite scaled_neg. exact Hc. }
  exists r. split; [exact E |]. rewrite scaled_neg in Sr.
  split; [exact Sr |]. split; [exact Er |].
  rewrite Vr, value_neg. ring.
Qed.

Lemma in_field_scaled (m s : Z) (d : Decimal) :
  in_field m s d <-> - s <= exp d /\ Z.abs (scaled s d) < 10 ^ m.
Proof.
  unfold in_field, scaled.
  assert (P : - s <= exp d -> 0 <= 10 ^ (exp d + s)).
  { intro. apply Z.lt_le_incl, pow10_pos. lia. }
  split; intros [He Hc]; (split; [lia |]).
  - rewrite Z.abs_mul, (Z.abs_eq (10 ^ (exp d + s))); [exact Hc | auto].
  - rewrite Z.abs_mul, (Z.abs_eq (10 ^ (exp d + s))) in Hc; [exact Hc | auto].
Qed.

Lemma money_plain (d : Decimal) : money d -> plain d.
Proof.
  unfold money, plain, in_field. intros [He Hc]. split; [lia |].
  replace (exp d + 16) with ((exp d + 2) + 14) by lia.
  rewrite Z.pow_add_r by lia.
  change (10 ^ 26) with (10 ^ 12 * 10 ^ 14).
  assert (0 < 10 ^ 14) by reflexivity.
  assert (0 <= Z.abs (coef d) * 10 ^ (exp d + 2)).
  { apply Z.mul_nonneg_nonneg; [apply Z.abs_nonneg |].
    apply Z.lt_le_incl, pow10_pos. lia. }
  nia.
Qed.

Lemma plain_bounds (d : Decimal) :
  plain d ->
  -16 <= exp d /\
  -100000000000000000000000000 < scaled 16 d < 100000000000000000000000000.
Proof.
  intro H. apply in_field_scaled in H. destruct H as [He Hc].
  change (10 ^ 26) with 100000000000000000000000000 in Hc. lia.
Qed.

Lemma scale16 : 0 <= 16 <= prec.
Proof. unfold prec. lia. Qed.

Lemma scale2 : 0 <= 2 <= prec.
Proof. unfold prec. lia. Qed.

(** On plain values a sum is exact. *)
Lemma plain_add (b amt : Decimal) :
  plain b -> plain amt ->
  exists r,
    dec_add b amt = inr r /\
    scaled 16 r = scaled 16 b + scaled 16 amt /\ -16 <= exp r /\
    (value r == value b + value amt)%Q.
Proof.
  intros Hb Ha.
  apply plain_bounds in Hb. apply plain_bounds in Ha.
  destruct Hb as [Eb Cb]. destruct Ha as [Ea Ca].
  apply (add_unrounded 16); try assumption; [apply scale16 |].
  change (10 ^ prec) with 10000000000000000000000000000. lia.
Qed.

(** On plain values a difference is exact. *)
Lemma plain_sub (b amt : Decimal) :
  plain b -> plain amt ->
  exists r,
    dec_sub b amt = inr r /\
    scaled 16 r = scaled 16 b - scaled 16 amt /\ -16 <= exp r /\
    (value r == value b - value amt)%Q.
Proof.
  intros Hb Ha.
  apply plain_bounds in Hb. apply plain_bounds in Ha.
  destruct Hb as [Eb Cb]. destruct Ha as [Ea Ca].
  apply (sub_unrounded 16); try assumption; [apply scale16 |].
  change (10 ^ prec) with 10000000000000000000000000000. lia.
Qed.

(** On plain values the amount and the fee add up exactly, and a current
    account loses them exactly. *)
Lemma plain_add_fee (amt : Decimal) :
  plain amt ->
  exists t,
    dec_add amt CurrentAccount_TRANSACTION_FEE = inr t /\
    scaled 16 t = scaled 16 amt + 100000000000000000 /\ -16 <= exp t /\
    (value t == value amt + 10)%Q.
Proof.
  intro Ha. apply plain_bounds in Ha. destruct Ha as [Ea Ca].
  destruct (add_unrounded 16 amt CurrentAccount_TRANSACTION_FEE)
    as (t & E & St & Et & Vt); try assumption.
  { apply scale16. }
  { change (exp CurrentAccount_TRANSACTION_FEE) with (-2)%Z. lia. }
  { change (scaled 16 CurrentAccount_TRANSACTION_FEE)
      with 100000000000000000%Z.
    change (10 ^ prec)%Z with 10000000000000000000000000000%Z. lia. }
  exists t. split; [exact E |]. split; [exact St |]. split; [exact Et |].
  rewrite Vt.
  assert (F : (value CurrentAccount_TRANSACTION_FEE == 10)%Q)
    by reflexivity.
  rewrite F. reflexivity.
Qed.

Lemma plain_debit (b amt : Decimal) :
  plain b -> plain amt ->
  exists t r,
    dec_add amt CurrentAccount_TRANSACTION_FEE = inr t /\
    dec_sub b t = inr r /\
    (value r == value b - (value amt + 10))%Q.
Proof.
  intros Hb Ha. destruct (plain_add_fee amt Ha) as (t & E & St & Et & Vt).
  apply plain_bounds in Hb. apply plain_bounds in Ha.
  destruct Hb as [Eb Cb]. destruct Ha as [Ea Ca].
  destruct (sub_unrounded 16 b t) as (r & Er & _ & _ & Vr);
    try assumption.
  { apply scale16. }
  { rewrite St.
    change (10 ^ prec)%Z with 10000000000000000000000000000%Z. lia. }
  exists t, r. split; [exact E |]. split; [exact Er |].
  rewrite Vr, Vt. reflexivity.
Qed.

(** Beyond 28 digits the context does round: this sum has 29 digits and
    loses the last one, half to even. *)
Lemma dec_add_rounds :
  exact_add (dec "99999999999999999999999999.95") (dec "10.00")
    = dec "100000000000000000000000009.95" /\
  dec_add (dec "99999999999999999999999999.95") (dec "10.00")
    = inr (dec "100000000000000000000000010.0").
Proof. split; reflexivity. Qed.

(** Below [Etiny] a result loses its digits: this product comes out as
    zero. *)
Lemma dec_mul_underflows :
  dec_mul (mkDecimal 1 (-1000026)) SavingsAccount_INTEREST_RATE
    = inr (mkDecimal 0 (-1000026)).
Proof. vm_compute. reflexivity. Qed.

(** *** What [_fix] keeps *)

(** [_fix] never lowers an exponent below a bound it was above. *)
Lemma fix_exp (z : Z) (d d' : Decimal) :
  z <= Emax -> z <= exp d -> fix_ d = inr d' -> z <= exp d'.
Proof.
  intros Hz He. unfold fix_.
  destruct (Z.abs (coef d) =? 0).
  { intro E. inversion E. cbn [exp]. lia. }
  destruct (Etop <? _); [discriminate |].
  match goal with
  | |- context [exp d <? ?m] => destruct (Z.ltb_spec (exp d) m) as [L | G]
  end.
  - match goal with
    | |- context [?q =? 10 ^ prec] => destruct (q =? 10 ^ prec)
    end;
      (match goal with
       | |- context [Etop <? ?e] => destruct (Etop <? e)
       end; [discriminate |]);
      intro E; inversion E; cbn [exp]; lia.
  - intro E. inversion E. subst. exact He.
Qed.

(** [_fix] never turns the sign of a number. *)
Lemma fix_sign (d d' : Decimal) :
  fix_ d = inr d' ->
  (0 <= coef d -> 0 <= coef d') /\ (coef d <= 0 -> coef d' <= 0).
Proof.
  unfold fix_.
  destruct (Z.abs (coef d) =? 0).
  { intro E. inversion E. cbn [coef]. lia. }
  destruct (Etop <? _); [discriminate |].
  match goal with
  | |- context [exp d <? ?m] => destruct (Z.ltb_spec (exp d) m) as [L | G]
  end.
  - set (q1 := round_half_even (Z.abs (coef d)) _).
    assert (H1 : 0 <= q1).
    { apply round_half_even_nonneg; [apply Z.abs_nonneg | lia]. }
    assert (H2 : 0 <= q1 / 10) by (apply Z.div_pos; lia).
    destruct (q1 =? 10 ^ prec);
      (match goal with
       | |- context [Etop <? ?e] => destruct (Etop <? e)
       end; [discriminate |]);
      intro E; inversion E; cbn [coef];
      (split; intro S;
       [ assert (0 <= Z.sgn (coef d)) by (apply Z.sgn_nonneg; exact S); nia
       | assert (Z.sgn (coef d) <= 0) by (apply Z.sgn_nonpos; exact S);
         nia ]).
  - intro E. inversion E. subst. auto.
Qed.

(** *** The sign of a product and of a quotient *)

Lemma strip_zeros_nonneg (fuel : nat) :
  forall q e, 0 <= q -> 0 <= fst (strip_zeros fuel q e).
Proof.
  induction fuel as [| f IH]; intros q e Hq; cbn [strip_zeros fst].
  - exact Hq.
  - destruct (q mod 10 =? 0); [| exact Hq].
    apply IH. apply Z.div_pos; lia.
Qed.

Lemma dec_mul_sign (a b p : Decimal) :
  0 < coef b -> dec_mul a b = inr p ->
  (0 <= coef a -> 0 <= coef p) /\ (coef a <= 0 -> coef p <= 0).
Proof.
  intros Hb E. unfold dec_mul in E. apply fix_sign in E.
  cbn [coef] in E. destruct E as [P N].
  split; intro H; [apply P | apply N]; nia.
Qed.

Lemma dec_div_sign (a b q : Decimal) :
  0 < coef b -> dec_div a b = inr q ->
  (0 <= coef a -> 0 <= coef q) /\ (coef a <= 0 -> coef q <= 0).
Proof.
  intros Hb. unfold dec_div.
  rewrite (Z.abs_eq (coef b)) by lia.
  rewrite (proj2 (Z.sgn_pos_iff (coef b)) Hb), Z.mul_1_r.
  destruct (Z.eqb_spec (coef b) 0) as [E | _]; [lia |].
  destruct (Z.eqb_spec (Z.abs (coef a)) 0) as [E | NZ].
  { intro F. apply fix_sign in F. cbn [coef] in F. lia. }
  set (x := Z.abs (coef a)) in *.
  assert (Hx : 0 < x) by (unfold x; lia).
  set (shift := ndigits (coef b) - ndigits x + prec + 1).
  assert (Hq : 0 <= fst (if 0 <=? shift
                         then Z.div_eucl (x * 10 ^ shift) (coef b)
                         else Z.div_eucl x (coef b * 10 ^ (- shift)))).
  { destruct (Z.leb_spec 0 shift) as [P | N].
    - change (fst (Z.div_eucl (x * 10 ^ shift) (coef b)))
        with (x * 10 ^ shift / coef b).
      assert (0 < 10 ^ shift) by (apply pow10_pos; lia).
      apply Z.div_pos; nia.
    - change (fst (Z.div_eucl x (coef b * 10 ^ (- shift))))
        with (x / (coef b * 10 ^ (- shift))).
      assert (0 < 10 ^ (- shift)) by (apply pow10_pos; lia).
      apply Z.div_pos; nia. }
  destruct (if 0 <=? shift
            then Z.div_eucl (x * 10 ^ shift) (coef b)
            else Z.div_eucl x (coef b * 10 ^ (- shift))) as [q0 r].
  cbn [fst] in Hq.
  assert (Sign : forall m d', 0 <= m ->
            fix_ (mkDecimal (Z.sgn (coef a) * m) d') = inr q ->
            (0 <= coef a -> 0 <= coef q) /\ (coef a <= 0 -> coef q <= 0)).
  { intros m d' Hm F. apply fix_sign in F. cbn [coef] in F.
    destruct F as [P N]. split; intro S.
    - apply P. assert (0 <= Z.sgn (coef a)) by (apply Z.sgn_nonneg, S). nia.
    - apply N. assert (Z.sgn (coef a) <= 0) by (apply Z.sgn_nonpos, S). nia. }
  destruct (r =? 0).
  - pose proof (strip_zeros_nonneg
                  (Z.to_nat (exp a - exp b - (exp a - exp b - shift)))
                  q0 (exp a - exp b - shift) Hq) as Hs.
    destruct (strip_zeros _ q0 _) as [q' e']. cbn [fst] in Hs.
    apply Sign. exact Hs.
  - apply Sign. destruct (q0 mod 5 =? 0); lia.
Qed.

(** The monthly interest on a balance that is not positive is not
    positive. *)
Lemma monthly_interest_nonpositive (b i : Decimal) :
  coef b <= 0 -> monthly_interest b = inr i -> coef i <= 0.
Proof.
  intros Hb. unfold monthly_interest.
  destruct (dec_mul b SavingsAccount_INTEREST_RATE) as [s | p] eqn:Ep;
    [discriminate |].
  intro Ed.
  apply dec_mul_sign in Ep; [| reflexivity].
  apply dec_div_sign in Ed; [| reflexivity].
  apply Ed, Ep, Hb.
Qed.

(** *** What a money column holds *)

Lemma sgn_mul_abs (c m : Z) : Z.sgn c * (Z.abs c * m) = c * m.
Proof.
  destruct (Z.lt_trichotomy c 0) as [N | [Z0 | P]].
  - rewrite (Z.sgn_neg c N), (Z.abs_neq c) by lia. ring.
  - subst. reflexivity.
  - rewrite (Z.sgn_pos c P), (Z.abs_eq c) by lia. ring.
Qed.

(** A value the field has accepted is held with two digits after the
    point and at most twelve digits, and has the sign of the value that
    was written. *)
Lemma format_number_stored (d q : Decimal) :
  format_number 12 2 d = inr q ->
  stored_money q /\
  (0 <= coef d -> 0 <= coef q) /\ (coef d <= 0 -> coef q <= 0).
Proof.
  unfold format_number, quantize.
  destruct (Z.abs (coef d) =? 0).
  { intro E. inversion E. unfold stored_money. cbn. repeat split; lia. }
  destruct ((Emax <? _) || _); [discriminate |].
  set (m := if - (2) <=? exp d
            then Z.abs (coef d) * 10 ^ (exp d + 2)
            else round_half_even (Z.abs (coef d)) (- (2) - exp d)).
  assert (Hm : 0 <= m).
  { unfold m. destruct (Z.leb_spec (- (2)) (exp d)).
    - assert (0 < 10 ^ (exp d + 2)) by (apply pow10_pos; lia).
      assert (0 <= Z.abs (coef d)) by apply Z.abs_nonneg. nia.
    - apply round_half_even_nonneg; [apply Z.abs_nonneg | lia]. }
  destruct (Z.leb_spec (10 ^ 12) m) as [L | G]; [discriminate |].
  intro E. inversion E. unfold stored_money. cbn [coef exp].
  split; [split; [reflexivity |] |].
  - rewrite Z.abs_mul, (Z.abs_eq m) by exact Hm.
    pose proof (Z.sgn_spec (coef d)) as S.
    assert (Z.abs (Z.sgn (coef d)) <= 1) by lia. nia.
  - split; intro S.
    + assert (0 <= Z.sgn (coef d)) by (apply Z.sgn_nonneg, S). nia.
    + assert (Z.sgn (coef d) <= 0) by (apply Z.sgn_nonpos, S). nia.
Qed.

(** A value with at most two digits after the point is held as it is: the
    row reads a number equal to the one that was written. *)
Lemma format_number_exact (d q : Decimal) :
  two_places d -> format_number 12 2 d = inr q -> (value q == value d)%Q.
Proof.
  unfold two_places, format_number, quantize. intro He.
  destruct (Z.eqb_spec (Z.abs (coef d)) 0) as [Z0 | NZ].
  { intro E. inversion E. rewrite value_zero. unfold value.
    assert (coef d = 0) by lia. rewrite H. ring. }
  destruct ((Emax <? _) || _); [discriminate |].
  destruct (Z.leb_spec (- (2)) (exp d)) as [_ | L]; [| lia].
  destruct (10 ^ 12 <=? _); [discriminate |].
  intro E. inversion E. unfold value. cbn [coef exp].
  rewrite sgn_mul_abs, value_shift by lia.
  replace (-2 + (exp d + 2)) with (exp d) by lia. reflexivity.
Qed.


Lemma format_number_signal (d : Decimal) (s : Signal) :
  format_number 12 2 d = inl s -> s = InvalidOperation.
Proof.
  unfold format_number, quantize.
  destruct (Z.abs (coef d) =? 0); [discriminate |].
  destruct ((Emax <? _) || _); [intro E; inversion E; reflexivity |].
  destruct (10 ^ 12 <=? _); [intro E; inversion E; reflexivity |
                             discriminate].
Qed.


(** *** Money values *)








(** Sums and differences keep to two digits after the point. *)
Lemma dec_add_two_places (a b r : Decimal) :
  two_places a -> two_places b -> dec_add a b = inr r -> two_places r.
Proof.
  unfold two_places, dec_add. intros Ha Hb E.
  apply (fix_exp (-2) (exact_add a b)); [unfold Emax; lia | | exact E].
  unfold exact_add, align; cbn [exp]. lia.
Qed.

Lemma dec_sub_two_places (a b r : Decimal) :
  two_places a -> two_places b -> dec_sub a b = inr r -> two_places r.
Proof.
  unfold dec_sub. intros Ha Hb. apply dec_add_two_places; assumption.
Qed.

End DecimalFacts.

(* ===================================================================== *)
(** ** Facts about the methods *)
(* ===================================================================== *)

(** *** Saving the account *)

(** [save] touches the account number only. *)
Lemma assign_account_number_fields {B : Type} (a : AccountOf B) (r : Rng) :
  balance (fst (assign_account_number a r)) = balance a /\
  account_type (fst (assign_account_number a r)) = account_type a /\
  is_active (fst (assign_account_number a r)) = is_active a.
Proof.
  unfold assign_account_number.
  destruct (account_number a =? "").
  - destruct (generate_account_number r) as [n r1]. cbn. auto.
  - cbn. auto.
Qed.

(** A saved account has a number, and keeps the one it had. *)
Lemma assign_account_number_number {B : Type} (a : AccountOf B) (r : Rng) :
  account_number (fst (assign_account_number a r)) <> "" /\
  (account_number a <> "" -> assign_account_number a r = (a, r)).
Proof.
  unfold assign_account_number.
  destruct (String.eqb_spec (account_number a) "") as [E | N].
  - unfold generate_account_number, random_choices. cbn [map seq].
    cbn. split; [discriminate | congruence].
  - cbn. auto.
Qed.

Lemma assign_account_number_active {B : Type} (f : bool) (a : AccountOf B)
    (r : Rng) :
  assign_account_number (with_active f a) r =
  (with_active f (fst (assign_account_number a r)),
   snd (assign_account_number a r)).
Proof.
  unfold assign_account_number. cbn [with_active account_number].
  destruct (account_number a =? "").
  - destruct (generate_account_number r) as [n r1]. reflexivity.
  - reflexivity.
Qed.

Lemma Account_save_eq (w : World) :
  Account_save w =
  (inr tt,
   mkWorld (fst (assign_account_number (self w) (rng w)))
           (transactions w) (other_ids w)
           (snd (assign_account_number (self w) (rng w)))).
Proof. reflexivity. Qed.

Lemma saved_with_fields (b : Decimal) (w : World) :
  balance (self (saved_with b w)) = Dec b /\
  account_type (self (saved_with b w)) = account_type (self w) /\
  is_active (self (saved_with b w)) = is_active (self w) /\
  account_number (self (saved_with b w)) <> "" /\
  (account_number (self w) <> "" ->
   account_number (self (saved_with b w)) = account_number (self w)) /\
  transactions (saved_with b w) = transactions w /\
  other_ids (saved_with b w) = other_ids w.
Proof.
  unfold saved_with. cbn [self transactions other_ids].
  destruct (assign_account_number_fields
              (with_balance (Dec b) (self w)) (rng w)) as (Hb & Ht & Ha).
  destruct (assign_account_number_number
              (with_balance (Dec b) (self w)) (rng w)) as (Hn & Hk).
  repeat split; auto.
  intro N. rewrite (Hk N). reflexivity.
Qed.


(** *** Writing a row *)

Lemma existsb_eqb_In (t : string) (l : list string) :
  existsb (String.eqb t) l = true <-> In t l.
Proof.
  rewrite existsb_exists. split.
  - intros (x & Hin & E). apply String.eqb_eq in E. subst. exact Hin.
  - intro Hin. exists t. split; [exact Hin | apply String.eqb_refl].
Qed.

(** The outcomes of [create], in the order in which it can fail. *)
Lemma Transaction_objects_create_cases (sa ca : option string)
    (ty : TransactionType) (amt bal : Decimal) (descr : string) (w : World) :
  Transaction_objects_create sa ca ty amt bal descr w =
  let tid := fst (generate_transaction_id (rng w)) in
  let r := snd (generate_transaction_id (rng w)) in
  let w0 := mkWorld (self w) (transactions w) (other_ids w) r in
  match format_number 12 2 amt with
  | inl s => (inl (DecimalException s), w0)
  | inr qa =>
      match format_number 12 2 bal with
      | inl s => (inl (DecimalException s), w0)
      | inr qb =>
          if existsb (String.eqb tid) (used_ids w)
          then (inl duplicate_transaction_id, w0)
          else (inr tt,
                mkWorld (self w)
                  (transactions w
                   ++ [mkTransaction tid sa ca ty qa qb descr])%list
                  (other_ids w) r)
      end
  end.
Proof.
  unfold Transaction_objects_create, bind, with_rng, lift, trapped.
  cbv zeta.
  destruct (format_number 12 2 amt); [reflexivity |].
  destruct (format_number 12 2 bal); reflexivity.
Qed.

Lemma Transaction_objects_create_spec (sa ca : option string)
    (ty : TransactionType) (amt bal : Decimal) (descr : string)
    (w w' : World) (x : Exception + unit) :
  Transaction_objects_create sa ca ty amt bal descr w = (x, w') ->
  self w' = self w /\ other_ids w' = other_ids w /\
  rng w' = snd (generate_transaction_id (rng w)) /\
  ((x = inr tt /\
    exists e, row_written sa ca ty amt bal descr w e /\
              transactions w' = (transactions w ++ [e])%list) \/
   (transactions w' = transactions w /\
    (x = inl duplicate_transaction_id \/
     exists s, x = inl (DecimalException s)))).
Proof.
  rewrite Transaction_objects_create_cases. cbv zeta.
  destruct (format_number 12 2 amt) as [s | qa] eqn:Ea.
  { intro E. inversion E. cbn. repeat split; eauto. }
  destruct (format_number 12 2 bal) as [s | qb] eqn:Eb.
  { intro E. inversion E. cbn. repeat split; eauto. }
  destruct (existsb _ (used_ids w)) eqn:Ex.
  { intro E. inversion E. cbn. repeat split; eauto. }
  intro E. inversion E. cbn. repeat split.
  left. split; [reflexivity |]. eexists. split; [| reflexivity].
  exists qa, qb. repeat split; auto.
  intro Hin. apply existsb_eqb_In in Hin. congruence.
Qed.


(** *** The bodies of the methods, check by check *)

Lemma SavingsAccount_deposit_cases (amt : Decimal) (w : World) :
  SavingsAccount_deposit amt w =
  if dec_leb amt (Decimal_of_int 0) then (inl InvalidAmount_deposit, w)
  else
    match number_add "+=" (balance (self w)) amt with
    | inl e => (inl e, w)
    | inr b =>
        match Transaction_objects_create
                (Some (account_number (self (saved_with b w)))) None
                DEPOSIT amt b
                ("Deposit to " ++ account_number (self (saved_with b w)))
                (saved_with b w)
        with
        | (inl e, w') => (inl e, w')
        | (inr _, w') => (inr true, w')
        end
    end.
Proof.
  unfold SavingsAccount_deposit.
  destruct (dec_leb amt (Decimal_of_int 0)); [reflexivity |].
  unfold bind at 1 2. unfold get_self, lift, Decimal_str.
  destruct (number_add "+=" (balance (self w)) amt); reflexivity.
Qed.

Lemma CurrentAccount_deposit_cases (amt : Decimal) (w : World) :
  CurrentAccount_deposit amt w =
  if dec_leb amt (Decimal_of_int 0) then (inl InvalidAmount_deposit, w)
  else
    match number_add "+=" (balance (self w)) amt with
    | inl e => (inl e, w)
    | inr b =>
        match Transaction_objects_create
                None (Some (account_number (self (saved_with b w))))
                DEPOSIT amt b
                ("Deposit to " ++ account_number (self (saved_with b w)))
                (saved_with b w)
        with
        | (inl e, w') => (inl e, w')
        | (inr _, w') => (inr true, w')
        end
    end.
Proof.
  unfold CurrentAccount_deposit.
  destruct (dec_leb amt (Decimal_of_int 0)); [reflexivity |].
  unfold bind at 1 2. unfold get_self, lift, Decimal_str.
  destruct (number_add "+=" (balance (self w)) amt); reflexivity.
Qed.

Lemma SavingsAccount_withdraw_cases (amt : Decimal) (w : World) :
  SavingsAccount_withdraw amt w =
  if dec_leb amt (Decimal_of_int 0) then (inl InvalidAmount_withdraw, w)
  else if dec_gtb amt SavingsAccount_WITHDRAWAL_LIMIT
  then (inl LimitExceeded, w)
  else
    match number_sub "-" (balance (self w)) amt with
    | inl e => (inl e, w)
    | inr d =>
        if dec_ltb d SavingsAccount_MINIMUM_BALANCE
        then (inl InsufficientBalance, w)
        else
          match number_sub "-=" (balance (self w)) amt with
          | inl e => (inl e, w)
          | inr b =>
              match Transaction_objects_create
                      (Some (account_number (self (saved_with b w)))) None
                      WITHDRAWAL amt b
                      ("Withdrawal from "
                       ++ account_number (self (saved_with b w)))
                      (saved_with b w)
              with
              | (inl e, w') => (inl e, w')
              | (inr _, w') => (inr true, w')
              end
          end
    end.
Proof.
  unfold SavingsAccount_withdraw, Decimal_str. cbv zeta.
  destruct (dec_leb amt (Decimal_of_int 0)); [reflexivity |].
  destruct (dec_gtb amt SavingsAccount_WITHDRAWAL_LIMIT); [reflexivity |].
  unfold bind at 1 2. unfold get_self, lift.
  destruct (number_sub "-" (balance (self w)) amt) as [e | d];
    [reflexivity |].
  destruct (dec_ltb d SavingsAccount_MINIMUM_BALANCE); [reflexivity |].
  unfold bind at 1.
  destruct (number_sub "-=" (balance (self w)) amt); reflexivity.
Qed.

Lemma CurrentAccount_withdraw_cases (amt : Decimal) (w : World) :
  CurrentAccount_withdraw amt w =
  if dec_leb amt (Decimal_of_int 0) then (inl InvalidAmount_withdraw, w)
  else
    match number_sub "-" (balance (self w)) amt with
    | inl e => (inl e, w)
    | inr d =>
        if dec_ltb d (dec_neg CurrentAccount_OVERDRAFT_LIMIT)
        then (inl OverdraftExceeded, w)
        else
          match trapped (dec_add amt CurrentAccount_TRANSACTION_FEE) with
          | inl e => (inl e, w)
          | inr total_deduction =>
              match number_sub "-=" (balance (self w)) total_deduction with
              | inl e => (inl e, w)
              | inr b =>
                  match Transaction_objects_create
                          None
                          (Some (account_number (self (saved_with b w))))
                          WITHDRAWAL amt b
                          ("Withdrawal from "
                           ++ account_number (self (saved_with b w)))
                          (saved_with b w)
                  with
                  | (inl e, w1) => (inl e, w1)
                  | (inr _, w1) =>
                      match Transaction_objects_create
                              None (Some (account_number (self w1)))
                              FEE CurrentAccount_TRANSACTION_FEE b
                              "Transaction fee" w1
                      with
                      | (inl e, w2) => (inl e, w2)
                      | (inr _, w2) => (inr true, w2)
                      end
                  end
              end
          end
    end.
Proof.
  unfold CurrentAccount_withdraw, Decimal_str. cbv zeta.
  destruct (dec_leb amt (Decimal_of_int 0)); [reflexivity |].
  unfold bind at 1 2. unfold get_self, lift.
  destruct (number_sub "-" (balance (self w)) amt) as [e | d];
    [reflexivity |].
  destruct (dec_ltb d (dec_neg CurrentAccount_OVERDRAFT_LIMIT));
    [reflexivity |].
  unfold bind at 1.
  destruct (trapped (dec_add amt CurrentAccount_TRANSACTION_FEE))
    as [e | t]; [reflexivity |].
  unfold bind at 1.
  destruct (number_sub "-=" (balance (self w)) t) as [e | b];
    [reflexivity |].
  unfold bind at 1 2 3 4. unfold put_self, get_self.
  rewrite Account_save_eq. cbn [self transactions other_ids rng].
  change (mkWorld
            (fst (assign_account_number (with_balance (Dec b) (self w))
                    (rng w)))
            (transactions w) (other_ids w)
            (snd (assign_account_number (with_balance (Dec b) (self w))
                    (rng w))))
    with (saved_with b w).
  change (fst (assign_account_number (with_balance (Dec b) (self w))
                 (rng w)))
    with (self (saved_with b w)).
  destruct (Transaction_objects_create None
              (Some (account_number (self (saved_with b w)))) WITHDRAWAL
              amt b _ (saved_with b w)) as [[e | u] w1] eqn:E1.
  - reflexivity.
  - pose proof (Transaction_objects_create_spec _ _ _ _ _ _ _ _ _ E1)
      as (Hs & _).
    rewrite Hs. unfold bind, ret.
    destruct (Transaction_objects_create None _ FEE _ b _ w1)
      as [[e | u2] w2]; reflexivity.
Qed.

(** The dispatch of a call on the class of the object. *)
Lemma deposit_dispatch (amt : Decimal) (w : World) :
  deposit amt w =
  match account_type (self w) with
  | SAVINGS => SavingsAccount_deposit amt w
  | CURRENT => CurrentAccount_deposit amt w
  end.
Proof.
  unfold deposit, bind, get_self.
  destruct (account_type (self w)); reflexivity.
Qed.

Lemma withdraw_dispatch (amt : Decimal) (w : World) :
  withdraw amt w =
  match account_type (self w) with
  | SAVINGS => SavingsAccount_withdraw amt w
  | CURRENT => CurrentAccount_withdraw amt w
  end.
Proof.
  unfold withdraw, bind, get_self.
  destruct (account_type (self w)); reflexivity.
Qed.

Lemma calculate_interest_cases (w : World) :
  calculate_interest w =
  match number_mul "*" (balance (self w)) SavingsAccount_INTEREST_RATE with
  | inl e => (inl e, w)
  | inr p =>
      match trapped (dec_div p (Decimal_of_int 12)) with
      | inl e => (inl e, w)
      | inr interest =>
          match SavingsAccount_deposit interest w with
          | (inl e, w') => (inl e, w')
          | (inr _, w') => (inr interest, w')
          end
      end
  end.
Proof.
  unfold calculate_interest. unfold bind at 1 2. unfold get_self, lift.
  destruct (number_mul "*" (balance (self w)) SavingsAccount_INTEREST_RATE)
    as [e | p]; [reflexivity |].
  unfold bind at 1.
  destruct (trapped (dec_div p (Decimal_of_int 12))); reflexivity.
Qed.

(** *** A call that returns *)

Lemma number_add_returns (op : string) (b : Number) (d r : Decimal) :
  number_add op b d = inr r ->
  exists x, b = Dec x /\ dec_add x d = inr r.
Proof.
  destruct b as [x | f]; cbn; [| discriminate].
  destruct (dec_add x d) eqn:E; cbn; [discriminate |].
  intro H. inversion H. subst. eauto.
Qed.

Lemma number_sub_returns (op : string) (b : Number) (d r : Decimal) :
  number_sub op b d = inr r ->
  exists x, b = Dec x /\ dec_sub x d = inr r.
Proof.
  destruct b as [x | f]; cbn; [| discriminate].
  destruct (dec_sub x d) eqn:E; cbn; [discriminate |].
  intro H. inversion H. subst. eauto.
Qed.

Lemma number_mul_returns (op : string) (b : Number) (d r : Decimal) :
  number_mul op b d = inr r ->
  exists x, b = Dec x /\ dec_mul x d = inr r.
Proof.
  destruct b as [x | f]; cbn; [| discriminate].
  destruct (dec_mul x d) eqn:E; cbn; [discriminate |].
  intro H. inversion H. subst. eauto.
Qed.

Lemma trapped_returns {A : Type} (r : Signal + A) (a : A) :
  trapped r = inr a -> r = inr a.
Proof. destruct r; cbn; [discriminate | congruence]. Qed.

Lemma trapped_error {A : Type} (r : Signal + A) (e : Exception) :
  trapped r = inl e -> not_ValueError e.
Proof.
  destruct r; cbn; [| discriminate].
  intros H msg. inversion H. discriminate.
Qed.

Lemma number_add_error (op : string) (b : Number) (d : Decimal)
    (e : Exception) :
  number_add op b d = inl e -> not_ValueError e.
Proof.
  destruct b as [x | f]; cbn.
  - apply trapped_error.
  - intros H msg. inversion H. discriminate.
Qed.

Lemma number_sub_error (op : string) (b : Number) (d : Decimal)
    (e : Exception) :
  number_sub op b d = inl e -> not_ValueError e.
Proof.
  destruct b as [x | f]; cbn.
  - apply trapped_error.
  - intros H msg. inversion H. discriminate.
Qed.

Lemma number_mul_error (op : string) (b : Number) (d : Decimal)
    (e : Exception) :
  number_mul op b d = inl e -> not_ValueError e.
Proof.
  destruct b as [x | f]; cbn.
  - apply trapped_error.
  - intros H msg. inversion H. discriminate.
Qed.

Lemma Transaction_objects_create_error (sa ca : option string)
    (ty : TransactionType) (amt bal : Decimal) (descr : string)
    (w w' : World) (e : Exception) :
  Transaction_objects_create sa ca ty amt bal descr w = (inl e, w') ->
  not_ValueError e.
Proof.
  intro H. apply Transaction_objects_create_spec in H.
  destruct H as (_ & _ & _ & [[E _] | (_ & [E | (s & E)])]);
    inversion E; intros msg; discriminate.
Qed.

(** A deposit that returns. *)
Lemma SavingsAccount_deposit_returns (amt : Decimal) (w w' : World)
    (r : bool) :
  SavingsAccount_deposit amt w = (inr r, w') ->
  exists b b' e,
    balance (self w) = Dec b /\
    dec_leb amt (Decimal_of_int 0) = false /\
    dec_add b amt = inr b' /\ r = true /\
    self w' = self (saved_with b' w) /\
    other_ids w' = other_ids w /\
    transactions w' = (transactions w ++ [e])%list /\
    row_written (Some (account_number (self (saved_with b' w)))) None
      DEPOSIT amt b'
      ("Deposit to " ++ account_number (self (saved_with b' w)))
      (saved_with b' w) e.
Proof.
  rewrite SavingsAccount_deposit_cases.
  destruct (dec_leb amt (Decimal_of_int 0)) eqn:P; [discriminate |].
  destruct (number_add "+=" (balance (self w)) amt) as [x | b'] eqn:A;
    [discriminate |].
  apply number_add_returns in A. destruct A as (b & Hb & A).
  destruct (Transaction_objects_create _ _ _ _ _ _ _) as [[x | u] w1] eqn:C;
    [discriminate |].
  intro E. inversion E. subst.
  apply Transaction_objects_create_spec in C.
  destruct C as (Hs & Ho & _ & [(_ & e & Hw & Ht) | (_ & [F | (s & F)])]);
    try discriminate.
  exists b, b', e. destruct (saved_with_fields b' w) as (_ & _ & _ & _ & _
                                                          & Tr & Ot).
  rewrite Tr in Ht. rewrite Ot in Ho. repeat split; auto.
Qed.

Lemma CurrentAccount_deposit_returns (amt : Decimal) (w w' : World)
    (r : bool) :
  CurrentAccount_deposit amt w = (inr r, w') ->
  exists b b' e,
    balance (self w) = Dec b /\
    dec_leb amt (Decimal_of_int 0) = false /\
    dec_add b amt = inr b' /\ r = true /\
    self w' = self (saved_with b' w) /\
    other_ids w' = other_ids w /\
    transactions w' = (transactions w ++ [e])%list /\
    row_written None (Some (account_number (self (saved_with b' w))))
      DEPOSIT amt b'
      ("Deposit to " ++ account_number (self (saved_with b' w)))
      (saved_with b' w) e.
Proof.
  rewrite CurrentAccount_deposit_cases.
  destruct (dec_leb amt (Decimal_of_int 0)) eqn:P; [discriminate |].
  destruct (number_add "+=" (balance (self w)) amt) as [x | b'] eqn:A;
    [discriminate |].
  apply number_add_returns in A. destruct A as (b & Hb & A).
  destruct (Transaction_objects_create _ _ _ _ _ _ _) as [[x | u] w1] eqn:C;
    [discriminate |].
  intro E. inversion E. subst.
  apply Transaction_objects_create_spec in C.
  destruct C as (Hs & Ho & _ & [(_ & e & Hw & Ht) | (_ & [F | (s & F)])]);
    try discriminate.
  exists b, b', e. destruct (saved_with_fields b' w) as (_ & _ & _ & _ & _
                                                          & Tr & Ot).
  rewrite Tr in Ht. rewrite Ot in Ho. repeat split; auto.
Qed.

(** A withdrawal from a savings account that returns. *)
Lemma SavingsAccount_withdraw_returns (amt : Decimal) (w w' : World)
    (r : bool) :
  SavingsAccount_withdraw amt w = (inr r, w') ->
  exists b b' e,
    balance (self w) = Dec b /\
    dec_leb amt (Decimal_of_int 0) = false /\
    dec_gtb amt SavingsAccount_WITHDRAWAL_LIMIT = false /\
    dec_sub b amt = inr b' /\
    dec_ltb b' SavingsAccount_MINIMUM_BALANCE = false /\
    r = true /\
    self w' = self (saved_with b' w) /\
    other_ids w' = other_ids w /\
    transactions w' = (transactions w ++ [e])%list /\
    row_written (Some (account_number (self (saved_with b' w)))) None
      WITHDRAWAL amt b'
      ("Withdrawal from " ++ account_number (self (saved_with b' w)))
      (saved_with b' w) e.
Proof.
  rewrite SavingsAccount_withdraw_cases.
  destruct (dec_leb amt (Decimal_of_int 0)) eqn:P; [discriminate |].
  destruct (dec_gtb amt SavingsAccount_WITHDRAWAL_LIMIT) eqn:L;
    [discriminate |].
  destruct (number_sub "-" (balance (self w)) amt) as [x | d] eqn:D;
    [discriminate |].
  destruct (dec_ltb d SavingsAccount_MINIMUM_BALANCE) eqn:Mn;
    [discriminate |].
  destruct (number_sub "-=" (balance (self w)) amt) as [x | b'] eqn:A;
    [discriminate |].
  apply number_sub_returns in D. destruct D as (b & Hb & D).
  apply number_sub_returns in A. destruct A as (b0 & Hb0 & A).
  assert (b0 = b) by congruence. subst b0.
  assert (d = b') by congruence. subst d.
  destruct (Transaction_objects_create _ _ _ _ _ _ _) as [[x | u] w1] eqn:C;
    [discriminate |].
  intro E. inversion E. subst.
  apply Transaction_objects_create_spec in C.
  destruct C as (Hs & Ho & _ & [(_ & e & Hw & Ht) | (_ & [F | (s & F)])]);
    try discriminate.
  exists b, b', e. destruct (saved_with_fields b' w) as (_ & _ & _ & _ & _
                                                          & Tr & Ot).
  rewrite Tr in Ht. rewrite Ot in Ho. repeat split; auto.
Qed.

(** A withdrawal from a current account that returns. *)
Lemma CurrentAccount_withdraw_returns (amt : Decimal) (w w' : World)
    (r : bool) :
  CurrentAccount_withdraw amt w = (inr r, w') ->
  exists b d t b' e1 e2 w1,
    balance (self w) = Dec b /\
    dec_leb amt (Decimal_of_int 0) = false /\
    dec_sub b amt = inr d /\
    dec_ltb d (dec_neg CurrentAccount_OVERDRAFT_LIMIT) = false /\
    dec_add amt CurrentAccount_TRANSACTION_FEE = inr t /\
    dec_sub b t = inr b' /\
    r = true /\
    self w' = self (saved_with b' w) /\
    other_ids w' = other_ids w /\
    transactions w' = (transactions w ++ [e1; e2])%list /\
    row_written None (Some (account_number (self (saved_with b' w))))
      WITHDRAWAL amt b'
      ("Withdrawal from " ++ account_number (self (saved_with b' w)))
      (saved_with b' w) e1 /\
    row_written None (Some (account_number (self (saved_with b' w))))
      FEE CurrentAccount_TRANSACTION_FEE b' "Transaction fee" w1 e2.
Proof.
  rewrite CurrentAccount_withdraw_cases.
  destruct (dec_leb amt (Decimal_of_int 0)) eqn:P; [discriminate |].
  destruct (number_sub "-" (balance (self w)) amt) as [x | d] eqn:D;
    [discriminate |].
  destruct (dec_ltb d (dec_neg CurrentAccount_OVERDRAFT_LIMIT)) eqn:Ov;
    [discriminate |].
  destruct (trapped (dec_add amt CurrentAccount_TRANSACTION_FEE))
    as [x | t] eqn:T; [discriminate |].
  apply trapped_returns in T.
  destruct (number_sub "-=" (balance (self w)) t) as [x | b'] eqn:A;
    [discriminate |].
  apply number_sub_returns in D. destruct D as (b & Hb & D).
  apply number_sub_returns in A. destruct A as (b0 & Hb0 & A).
  assert (b0 = b) by congruence. subst b0.
  destruct (Transaction_objects_create None _ WITHDRAWAL _ _ _ _)
    as [[x | u] w1] eqn:C1; [discriminate |].
  destruct (Transaction_objects_create None _ FEE _ _ _ _)
    as [[x | u2] w2] eqn:C2; [discriminate |].
  intro E. inversion E. subst.
  apply Transaction_objects_create_spec in C1.
  destruct C1 as (Hs1 & Ho1 & _ & [(_ & e1 & Hw1 & Ht1)
                                  | (_ & [F | (s & F)])]);
    try discriminate.
  apply Transaction_objects_create_spec in C2.
  destruct C2 as (Hs2 & Ho2 & _ & [(_ & e2 & Hw2 & Ht2)
                                  | (_ & [F | (s & F)])]);
    try discriminate.
  exists b, d, t, b', e1, e2, w1.
  destruct (saved_with_fields b' w) as (_ & _ & _ & _ & _ & Tr & Ot).
  rewrite Hs1 in Hw2.
  repeat split; auto.
  - congruence.
  - congruence.
  - rewrite Ht2, Ht1, Tr, <- app_assoc. reflexivity.
Qed.

(** *** A call that raises a [ValueError] *)

Ltac not_value H :=
  match type of H with
  | (inl ?e, _) = (inl (ValueError ?msg), _) =>
      let N := fresh "N" in
      assert (N : not_ValueError e)
        by (eauto using number_add_error, number_sub_error,
              number_mul_error, trapped_error,
              Transaction_objects_create_error);
      exfalso; apply (N msg); congruence
  end.

Lemma SavingsAccount_deposit_ValueError (amt : Decimal) (w w' : World)
    (msg : string) :
  SavingsAccount_deposit amt w = (inl (ValueError msg), w') ->
  w' = w /\ ValueError msg = InvalidAmount_deposit /\
  dec_leb amt (Decimal_of_int 0) = true.
Proof.
  rewrite SavingsAccount_deposit_cases.
  destruct (dec_leb amt (Decimal_of_int 0)) eqn:P.
  { intro E. inversion E. auto. }
  destruct (number_add "+=" (balance (self w)) amt) as [x | b'] eqn:A.
  { intro E. not_value E. }
  destruct (Transaction_objects_create _ _ _ _ _ _ _) as [[x | u] w1] eqn:C;
    [| discriminate].
  intro E. not_value E.
Qed.

Lemma CurrentAccount_deposit_ValueError (amt : Decimal) (w w' : World)
    (msg : string) :
  CurrentAccount_deposit amt w = (inl (ValueError msg), w') ->
  w' = w /\ ValueError msg = InvalidAmount_deposit /\
  dec_leb amt (Decimal_of_int 0) = true.
Proof.
  rewrite CurrentAccount_deposit_cases.
  destruct (dec_leb amt (Decimal_of_int 0)) eqn:P.
  { intro E. inversion E. auto. }
  destruct (number_add "+=" (balance (self w)) amt) as [x | b'] eqn:A.
  { intro E. not_value E. }
  destruct (Transaction_objects_create _ _ _ _ _ _ _) as [[x | u] w1] eqn:C;
    [| discriminate].
  intro E. not_value E.
Qed.

Lemma SavingsAccount_withdraw_ValueError (amt : Decimal) (w w' : World)
    (msg : string) :
  SavingsAccount_withdraw amt w = (inl (ValueError msg), w') ->
  w' = w /\
  ((ValueError msg = InvalidAmount_withdraw /\
    dec_leb amt (Decimal_of_int 0) = true) \/
   (ValueError msg = LimitExceeded /\
    dec_leb amt (Decimal_of_int 0) = false) \/
   (ValueError msg = InsufficientBalance /\
    dec_leb amt (Decimal_of_int 0) = false)).
Proof.
  rewrite SavingsAccount_withdraw_cases.
  destruct (dec_leb amt (Decimal_of_int 0)) eqn:P.
  { intro E. inversion E. auto. }
  destruct (dec_gtb amt SavingsAccount_WITHDRAWAL_LIMIT) eqn:L.
  { intro E. inversion E. auto. }
  destruct (number_sub "-" (balance (self w)) amt) as [x | d] eqn:D.
  { intro E. not_value E. }
  destruct (dec_ltb d SavingsAccount_MINIMUM_BALANCE) eqn:Mn.
  { intro E. inversion E. auto. }
  destruct (number_sub "-=" (balance (self w)) amt) as [x | b'] eqn:A.
  { intro E. not_value E. }
  destruct (Transaction_objects_create _ _ _ _ _ _ _) as [[x | u] w1] eqn:C;
    [| discriminate].
  intro E. not_value E.
Qed.

Lemma CurrentAccount_withdraw_ValueError (amt : Decimal) (w w' : World)
    (msg : string) :
  CurrentAccount_withdraw amt w = (inl (ValueError msg), w') ->
  w' = w /\
  ((ValueError msg = InvalidAmount_withdraw /\
    dec_leb amt (Decimal_of_int 0) = true) \/
   (ValueError msg = OverdraftExceeded /\
    dec_leb amt (Decimal_of_int 0) = false)).
Proof.
  rewrite CurrentAccount_withdraw_cases.
  destruct (dec_leb amt (Decimal_of_int 0)) eqn:P.
  { intro E. inversion E. auto. }
  destruct (number_sub "-" (balance (self w)) amt) as [x | d] eqn:D.
  { intro E. not_value E. }
  destruct (dec_ltb d (dec_neg CurrentAccount_OVERDRAFT_LIMIT)) eqn:Ov.
  { intro E. inversion E. auto. }
  destruct (trapped (dec_add amt CurrentAccount_TRANSACTION_FEE))
    as [x | t] eqn:T.
  { intro E. not_value E. }
  destruct (number_sub "-=" (balance (self w)) t) as [x | b'] eqn:A.
  { intro E. not_value E. }
  destruct (Transaction_objects_create None _ WITHDRAWAL _ _ _ _)
    as [[x | u] w1] eqn:C1.
  { intro E. not_value E. }
  destruct (Transaction_objects_create None _ FEE _ _ _ _)
    as [[x | u2] w2] eqn:C2; [| discriminate].
  intro E. not_value E.
Qed.



(** The fields of a row that [create] has written. *)
Lemma row_written_balance_after (sa ca : option string)
    (ty : TransactionType) (amt bal : Decimal) (descr : string) (w : World)
    (e : Transaction) :
  row_written sa ca ty amt bal descr w e ->
  transaction_type e = ty /\
  format_number 12 2 amt = inr (amount e) /\
  format_number 12 2 bal = inr (balance_after e).
Proof.
  intros (qa & qb & Fa & Fb & _ & E). subst e. cbn. auto.
Qed.

(** A deposit that returns, on either class. *)
Lemma deposit_returns (amt : Decimal) (w w' : World) (r : bool) :
  deposit amt w = (inr r, w') ->
  exists b b' e,
    balance (self w) = Dec b /\
    dec_leb amt (Decimal_of_int 0) = false /\
    dec_add b amt = inr b' /\ r = true /\
    self w' = self (saved_with b' w) /\
    transactions w' = (transactions w ++ [e])%list /\
    transaction_type e = DEPOSIT /\
    format_number 12 2 amt = inr (amount e) /\
    format_number 12 2 b' = inr (balance_after e).
Proof.
  intro E. rewrite deposit_dispatch in E.
  destruct (account_type (self w));
    [apply SavingsAccount_deposit_returns in E
    | apply CurrentAccount_deposit_returns in E];
    destruct E as (b & b' & e & B & P & A & R & Hs & _ & Ht & Hw);
    apply row_written_balance_after in Hw;
    destruct Hw as (Ty & Fa & Fb);
    exists b, b', e; repeat split; assumption.
Qed.

(** *** A call that goes through *)









(** *** The methods and the [is_active] flag *)

Lemma saved_with_active (b : Decimal) (f : bool) (w : World) :
  saved_with b (world_with_active f w) =
  world_with_active f (saved_with b w).
Proof.
  unfold saved_with, world_with_active.
  cbn [self transactions other_ids rng].
  change (with_balance (Dec b) (with_active f (self w)))
    with (with_active f (with_balance (Dec b) (self w))).
  rewrite assign_account_number_active. reflexivity.
Qed.

Lemma Transaction_objects_create_active (sa ca : option string)
    (ty : TransactionType) (amt bal : Decimal) (descr : string)
    (f : bool) (w : World) :
  Transaction_objects_create sa ca ty amt bal descr (world_with_active f w) =
  (fst (Transaction_objects_create sa ca ty amt bal descr w),
   world_with_active f
     (snd (Transaction_objects_create sa ca ty amt bal descr w))).
Proof.
  rewrite !Transaction_objects_create_cases. cbv zeta.
  change (used_ids (world_with_active f w)) with (used_ids w).
  cbn [world_with_active rng self transactions other_ids].
  destruct (format_number 12 2 amt); [reflexivity |].
  destruct (format_number 12 2 bal); [reflexivity |].
  destruct (existsb _ (used_ids w)); reflexivity.
Qed.

Ltac flag_row :=
  rewrite saved_with_active;
  change (account_number (self (world_with_active ?f ?w)))
    with (account_number (self w));
  rewrite Transaction_objects_create_active;
  cbn [fst snd].

Lemma SavingsAccount_deposit_flag (f : bool) (amt : Decimal) (w : World) :
  SavingsAccount_deposit amt (world_with_active f w) =
  (fst (SavingsAccount_deposit amt w),
   world_with_active f (snd (SavingsAccount_deposit amt w))).
Proof.
  rewrite !SavingsAccount_deposit_cases.
  change (balance (self (world_with_active f w))) with (balance (self w)).
  destruct (dec_leb amt (Decimal_of_int 0)); [reflexivity |].
  destruct (number_add "+=" (balance (self w)) amt) as [e | b];
    [reflexivity |].
  flag_row.
  destruct (Transaction_objects_create _ _ _ _ _ _ (saved_with b w))
    as [[e | u] w1]; reflexivity.
Qed.

Lemma CurrentAccount_deposit_flag (f : bool) (amt : Decimal) (w : World) :
  CurrentAccount_deposit amt (world_with_active f w) =
  (fst (CurrentAccount_deposit amt w),
   world_with_active f (snd (CurrentAccount_deposit amt w))).
Proof.
  rewrite !CurrentAccount_deposit_cases.
  change (balance (self (world_with_active f w))) with (balance (self w)).
  destruct (dec_leb amt (Decimal_of_int 0)); [reflexivity |].
  destruct (number_add "+=" (balance (self w)) amt) as [e | b];
    [reflexivity |].
  flag_row.
  destruct (Transaction_objects_create _ _ _ _ _ _ (saved_with b w))
    as [[e | u] w1]; reflexivity.
Qed.

Lemma SavingsAccount_withdraw_flag (f : bool) (amt : Decimal) (w : World) :
  SavingsAccount_withdraw amt (world_with_active f w) =
  (fst (SavingsAccount_withdraw amt w),
   world_with_active f (snd (SavingsAccount_withdraw amt w))).
Proof.
  rewrite !SavingsAccount_withdraw_cases.
  change (balance (self (world_with_active f w))) with (balance (self w)).
  destruct (dec_leb amt (Decimal_of_int 0)); [reflexivity |].
  destruct (dec_gtb amt SavingsAccount_WITHDRAWAL_LIMIT); [reflexivity |].
  destruct (number_sub "-" (balance (self w)) amt) as [e | d];
    [reflexivity |].
  destruct (dec_ltb d SavingsAccount_MINIMUM_BALANCE); [reflexivity |].
  destruct (number_sub "-=" (balance (self w)) amt) as [e | b];
    [reflexivity |].
  flag_row.
  destruct (Transaction_objects_create _ _ _ _ _ _ (saved_with b w))
    as [[e | u] w1]; reflexivity.
Qed.

Lemma CurrentAccount_withdraw_flag (f : bool) (amt : Decimal) (w : World) :
  CurrentAccount_withdraw amt (world_with_active f w) =
  (fst (CurrentAccount_withdraw amt w),
   world_with_active f (snd (CurrentAccount_withdraw amt w))).
Proof.
  rewrite !CurrentAccount_withdraw_cases.
  change (balance (self (world_with_active f w))) with (balance (self w)).
  destruct (dec_leb amt (Decimal_of_int 0)); [reflexivity |].
  destruct (number_sub "-" (balance (self w)) amt) as [e | d];
    [reflexivity |].
  destruct (dec_ltb d (dec_neg CurrentAccount_OVERDRAFT_LIMIT));
    [reflexivity |].
  destruct (trapped (dec_add amt CurrentAccount_TRANSACTION_FEE))
    as [e | t]; [reflexivity |].
  destruct (number_sub "-=" (balance (self w)) t) as [e | b];
    [reflexivity |].
  flag_row.
  destruct (Transaction_objects_create _ _ WITHDRAWAL _ _ _
              (saved_with b w)) as [[e | u] w1]; [reflexivity |].
  change (account_number (self (world_with_active f w1)))
    with (account_number (self w1)).
  rewrite Transaction_objects_create_active. cbn [fst snd].
  destruct (Transaction_objects_create _ _ FEE _ _ _ w1)
    as [[e | u2] w2]; reflexivity.
Qed.

(** *** What a call leaves of the account and of its rows *)

Lemma digit_pick (k : nat) :
  In (nth (k mod List.length string_digits)%nat string_digits "0"%char)
     string_digits.
Proof.
  apply nth_In. apply Nat.mod_upper_bound. discriminate.
Qed.

(** [generate_transaction_id] gives TXN and ten digits, whatever the
    random source. *)
Lemma generate_transaction_id_shape (r : Rng) :
  transaction_id_shape (fst (generate_transaction_id r)).
Proof.
  unfold generate_transaction_id, random_choices. cbn [fst map seq].
  eexists. split; [reflexivity |]. split; [reflexivity |].
  repeat (constructor; [apply digit_pick |]). constructor.
Qed.

Lemma served_refl (w : World) : served w w.
Proof.
  split; [reflexivity |]. split; [reflexivity |]. split; [auto |].
  exists []. rewrite app_nil_r.
  split; [reflexivity |]. split; [constructor | congruence].
Qed.

Lemma written_for_same (a a' : Account) (e : Transaction) :
  account_type a' = account_type a ->
  account_number a' = account_number a ->
  written_for a e -> written_for a' e.
Proof.
  unfold written_for. intros Ht En. rewrite Ht, En. auto.
Qed.

Lemma served_trans (w w1 w2 : World) :
  served w w1 -> served w1 w2 -> served w w2.
Proof.
  intros (T1 & A1 & K1 & rows1 & R1 & F1 & N1)
         (T2 & A2 & K2 & rows2 & R2 & F2 & N2).
  split; [congruence |]. split; [congruence |]. split.
  { intro H. rewrite K2; [apply K1, H |]. rewrite (K1 H). exact H. }
  exists (rows1 ++ rows2)%list. split; [| split].
  - rewrite R2, R1, app_assoc. reflexivity.
  - apply Forall_app. split; [| exact F2].
    destruct rows1 as [| e1 rest1]; [constructor |].
    assert (Hn : account_number (self w1) <> "")
      by (apply N1; discriminate).
    eapply Forall_impl; [| exact F1].
    intros e He. apply (written_for_same (self w1)); auto.
  - intro Hne. destruct rows2 as [| e2 rest2].
    + rewrite app_nil_r in Hne.
      assert (Hn : account_number (self w1) <> "") by (apply N1, Hne).
      rewrite (K2 Hn). exact Hn.
    + apply N2. discriminate.
Qed.

(** A row that [create] has written for an account is a row of that
    account. *)
Lemma row_written_for (a : Account) (sa ca : option string)
    (ty : TransactionType) (amt bal : Decimal) (descr : string) (w : World)
    (e : Transaction) :
  match account_type a with
  | SAVINGS => sa = Some (account_number a) /\ ca = None
  | CURRENT => ca = Some (account_number a) /\ sa = None
  end ->
  (0 <= coef amt)%Z ->
  ty = DEPOSIT \/ ty = WITHDRAWAL \/ ty = FEE ->
  row_written sa ca ty amt bal descr w e ->
  written_for a e.
Proof.
  intros Hk Hpos Hty (qa & qb & Fa & Fb & _ & E). subst e.
  apply format_number_stored in Fa. apply format_number_stored in Fb.
  destruct Fa as (Sa & Pa & _). destruct Fb as (Sb & _).
  unfold written_for. cbn.
  split; [exact Hk |]. split; [exact Sa |]. split; [apply Pa, Hpos |].
  split; [exact Sb |]. split; [exact Hty |].
  apply generate_transaction_id_shape.
Qed.

Lemma positive_coef (amt : Decimal) :
  dec_leb amt (Decimal_of_int 0) = false -> (0 <= coef amt)%Z.
Proof. rewrite dec_leb_zero. intro H. apply Z.leb_gt in H. lia. Qed.

(** The account as [self.balance = b; self.save()] leaves it, with the
    rows [rows] appended, serves. *)
Lemma saved_served (b : Decimal) (w w' : World) (rows : list Transaction) :
  self w' = self (saved_with b w) ->
  transactions w' = (transactions w ++ rows)%list ->
  Forall (written_for (self (saved_with b w))) rows ->
  served w w'.
Proof.
  intros Hs Ht Hf.
  destruct (saved_with_fields b w) as (_ & Ty & Ac & Nn & Nk & _).
  unfold served. rewrite Hs.
  repeat split; auto. exists rows. repeat split; auto.
Qed.

Ltac key_facts :=
  match goal with
  | Hty : account_type (self ?w) = _ |- context [saved_with ?b ?w] =>
      let T := fresh "T" in
      destruct (saved_with_fields b w) as (_ & T & _);
      rewrite T, Hty; auto
  end.

Lemma SavingsAccount_deposit_served (amt : Decimal) (w : World) :
  account_type (self w) = SAVINGS ->
  served w (snd (SavingsAccount_deposit amt w)).
Proof.
  intro Hty. rewrite SavingsAccount_deposit_cases.
  destruct (dec_leb amt (Decimal_of_int 0)) eqn:P; [apply served_refl |].
  destruct (number_add "+=" (balance (self w)) amt) as [x | b];
    [apply served_refl |].
  destruct (saved_with_fields b w) as (_ & _ & _ & _ & _ & Tr & _).
  destruct (Transaction_objects_create _ _ _ _ _ _ _) as [x1 w1] eqn:C.
  apply Transaction_objects_create_spec in C.
  destruct C as (Hs & _ & _ & [(F & e & Hw & Ht) | (Ht & F)]);
    rewrite Tr in Ht.
  - subst x1. cbn [snd]. apply (saved_served b w w1 [e]); auto.
    constructor; [| constructor].
    eapply row_written_for; [| apply positive_coef, P | | exact Hw];
      [key_facts | auto].
  - assert (S1 : served w w1).
    { apply (saved_served b w w1 []); auto.
      rewrite app_nil_r. exact Ht. }
    destruct F as [F | (s & F)]; subst x1; exact S1.
Qed.

Lemma CurrentAccount_deposit_served (amt : Decimal) (w : World) :
  account_type (self w) = CURRENT ->
  served w (snd (CurrentAccount_deposit amt w)).
Proof.
  intro Hty. rewrite CurrentAccount_deposit_cases.
  destruct (dec_leb amt (Decimal_of_int 0)) eqn:P; [apply served_refl |].
  destruct (number_add "+=" (balance (self w)) amt) as [x | b];
    [apply served_refl |].
  destruct (saved_with_fields b w) as (_ & _ & _ & _ & _ & Tr & _).
  destruct (Transaction_objects_create _ _ _ _ _ _ _) as [x1 w1] eqn:C.
  apply Transaction_objects_create_spec in C.
  destruct C as (Hs & _ & _ & [(F & e & Hw & Ht) | (Ht & F)]);
    rewrite Tr in Ht.
  - subst x1. cbn [snd]. apply (saved_served b w w1 [e]); auto.
    constructor; [| constructor].
    eapply row_written_for; [| apply positive_coef, P | | exact Hw];
      [key_facts | auto].
  - assert (S1 : served w w1).
    { apply (saved_served b w w1 []); auto.
      rewrite app_nil_r. exact Ht. }
    destruct F as [F | (s & F)]; subst x1; exact S1.
Qed.

Lemma SavingsAccount_withdraw_served (amt : Decimal) (w : World) :
  account_type (self w) = SAVINGS ->
  served w (snd (SavingsAccount_withdraw amt w)).
Proof.
  intro Hty. rewrite SavingsAccount_withdraw_cases.
  destruct (dec_leb amt (Decimal_of_int 0)) eqn:P; [apply served_refl |].
  destruct (dec_gtb amt SavingsAccount_WITHDRAWAL_LIMIT);
    [apply served_refl |].
  destruct (number_sub "-" (balance (self w)) amt) as [x | d];
    [apply served_refl |].
  destruct (dec_ltb d SavingsAccount_MINIMUM_BALANCE);
    [apply served_refl |].
  destruct (number_sub "-=" (balance (self w)) amt) as [x | b];
    [apply served_refl |].
  destruct (saved_with_fields b w) as (_ & _ & _ & _ & _ & Tr & _).
  destruct (Transaction_objects_create _ _ _ _ _ _ _) as [x1 w1] eqn:C.
  apply Transaction_objects_create_spec in C.
  destruct C as (Hs & _ & _ & [(F & e & Hw & Ht) | (Ht & F)]);
    rewrite Tr in Ht.
  - subst x1. cbn [snd]. apply (saved_served b w w1 [e]); auto.
    constructor; [| constructor].
    eapply row_written_for; [| apply positive_coef, P | | exact Hw];
      [key_facts | auto].
  - assert (S1 : served w w1).
    { apply (saved_served b w w1 []); auto.
      rewrite app_nil_r. exact Ht. }
    destruct F as [F | (s & F)]; subst x1; exact S1.
Qed.

Lemma CurrentAccount_withdraw_served (amt : Decimal) (w : World) :
  account_type (self w) = CURRENT ->
  served w (snd (CurrentAccount_withdraw amt w)).
Proof.
  intro Hty. rewrite CurrentAccount_withdraw_cases.
  destruct (dec_leb amt (Decimal_of_int 0)) eqn:P; [apply served_refl |].
  destruct (number_sub "-" (balance (self w)) amt) as [x | d];
    [apply served_refl |].
  destruct (dec_ltb d (dec_neg CurrentAccount_OVERDRAFT_LIMIT));
    [apply served_refl |].
  destruct (trapped (dec_add amt CurrentAccount_TRANSACTION_FEE))
    as [x | t]; [apply served_refl |].
  destruct (number_sub "-=" (balance (self w)) t) as [x | b];
    [apply served_refl |].
  destruct (saved_with_fields b w) as (_ & _ & _ & _ & _ & Tr & _).
  destruct (Transaction_objects_create None _ WITHDRAWAL _ _ _ _)
    as [x1 w1] eqn:C1.
  apply Transaction_objects_create_spec in C1.
  destruct C1 as (Hs1 & _ & _ & [(F1 & e1 & Hw1 & Ht1) | (Ht1 & F1)]);
    rewrite Tr in Ht1.
  2: { assert (S1 : served w w1).
       { apply (saved_served b w w1 []); auto.
         rewrite app_nil_r. exact Ht1. }
       destruct F1 as [F1 | (s & F1)]; subst x1; exact S1. }
  subst x1.
  assert (W1 : written_for (self (saved_with b w)) e1).
  { eapply row_written_for; [| apply positive_coef, P | | exact Hw1];
      [key_facts | auto]. }
  destruct (Transaction_objects_create None _ FEE _ _ _ _)
    as [x2 w2] eqn:C2.
  apply Transaction_objects_create_spec in C2.
  destruct C2 as (Hs2 & _ & _ & [(F2 & e2 & Hw2 & Ht2) | (Ht2 & F2)]).
  - subst x2. cbn [snd].
    apply (saved_served b w w2 [e1; e2]); [congruence | |].
    + rewrite Ht2, Ht1, <- app_assoc. reflexivity.
    + constructor; [exact W1 |]. constructor; [| constructor].
      rewrite Hs1 in Hw2.
      eapply row_written_for; [| | | exact Hw2];
        [key_facts | vm_compute; discriminate | auto].
  - assert (S2 : served w w2).
    { apply (saved_served b w w2 [e1]); [congruence | congruence | auto]. }
    destruct F2 as [F2 | (s & F2)]; subst x2; exact S2.
Qed.

Lemma perform_served (op : Operation) (w : World) :
  served w (snd (perform op w)).
Proof.
  destruct op as [amt | amt |]; unfold perform.
  - unfold bind at 1. rewrite deposit_dispatch.
    destruct (account_type (self w)) eqn:Hty.
    + pose proof (SavingsAccount_deposit_served amt w Hty) as S.
      destruct (SavingsAccount_deposit amt w) as [[e | b] w']; exact S.
    + pose proof (CurrentAccount_deposit_served amt w Hty) as S.
      destruct (CurrentAccount_deposit amt w) as [[e | b] w']; exact S.
  - unfold bind at 1. rewrite withdraw_dispatch.
    destruct (account_type (self w)) eqn:Hty.
    + pose proof (SavingsAccount_withdraw_served amt w Hty) as S.
      destruct (SavingsAccount_withdraw amt w) as [[e | b] w']; exact S.
    + pose proof (CurrentAccount_withdraw_served amt w Hty) as S.
      destruct (CurrentAccount_withdraw amt w) as [[e | b] w']; exact S.
  - unfold bind at 1, get_self.
    destruct (account_type (self w)) eqn:Hty.
    + unfold bind at 1. rewrite calculate_interest_cases.
      destruct (number_mul "*" (balance (self w))
                  SavingsAccount_INTEREST_RATE) as [e | p];
        [apply served_refl |].
      destruct (trapped (dec_div p (Decimal_of_int 12))) as [e | i];
        [apply served_refl |].
      pose proof (SavingsAccount_deposit_served i w Hty) as S.
      destruct (SavingsAccount_deposit i w) as [[e | b] w']; exact S.
    + apply served_refl.
Qed.

Lemma run_served (ops : list Operation) :
  forall w, served w (run ops w).
Proof.
  induction ops as [| op rest IH]; intro w; cbn [run].
  - apply served_refl.
  - apply (served_trans w (snd (perform op w))).
    + apply perform_served.
    + apply IH.
Qed.

Lemma written_for_account (a : Account) (e : Transaction) :
  written_for a e ->
  Transaction_account e = Some (account_number a) /\
  TransactionAdmin_get_account e = account_number a.
Proof.
  unfold written_for, TransactionAdmin_get_account, Transaction_account.
  intros (Hfk & _).
  destruct (account_type a); destruct Hfk as [H1 H2];
    rewrite ?H1, ?H2, ?H1; split; reflexivity.
Qed.

(* ===================================================================== *)
(** ** The balance and the history of an account *)
(* ===================================================================== *)

Lemma last_balance_after_app (seed : Decimal) (ts rows : list Transaction)
    (e : Transaction) :
  last_balance_after seed (ts ++ rows ++ [e]) = balance_after e.
Proof.
  unfold last_balance_after. rewrite app_assoc, map_app. cbn.
  apply last_last.
Qed.

(** The account as a call that returned has left it: its balance is a
    [Decimal] of at most two digits after the point, and the last row
    holds it. *)
Lemma returned_consistent (seed : Decimal) (w w' : World) (b' : Decimal)
    (rows : list Transaction) (e : Transaction) :
  two_places b' ->
  self w' = self (saved_with b' w) ->
  transactions w' = (transactions w ++ rows ++ [e])%list ->
  format_number 12 2 b' = inr (balance_after e) ->
  ledger_consistent seed w' /\ two_place_balance (balance (self w')).
Proof.
  intros T Hs Ht Hf.
  destruct (saved_with_fields b' w) as (Hb & _).
  unfold ledger_consistent. rewrite Hs, Hb, Ht, last_balance_after_app.
  cbn [number_value two_place_balance]. split; [| exact T].
  symmetry. apply format_number_exact; assumption.
Qed.

Lemma dec_balance_two_places (w : World) (b : Decimal) :
  two_place_balance (balance (self w)) -> balance (self w) = Dec b ->
  two_places b.
Proof. intros H E. rewrite E in H. exact H. Qed.

(** A deposit or a withdrawal of an amount with at most two digits after
    the point that returns leaves the balance equal to the [balance_after]
    of the row it wrote last. *)
Lemma perform_consistent (seed : Decimal) (op : Operation) (w : World) :
  two_place_call op ->
  two_place_balance (balance (self w)) ->
  returned (perform op w) = true ->
  ledger_consistent seed (snd (perform op w)) /\
  two_place_balance (balance (self (snd (perform op w)))).
Proof.
  intros Hop Hb. destruct op as [amt | amt |]; [| | contradiction];
    cbn [two_place_call] in Hop; unfold perform, returned, bind.
  - destruct (deposit amt w) as [[x | r] w'] eqn:E; [discriminate |].
    intros _. cbn [snd ret].
    rewrite deposit_dispatch in E.
    destruct (account_type (self w));
      [apply SavingsAccount_deposit_returns in E
      | apply CurrentAccount_deposit_returns in E];
      destruct E as (b & b' & e & B & _ & A & _ & Hs & _ & Ht & Hw);
      apply row_written_balance_after in Hw; destruct Hw as (_ & _ & Fb);
      apply (returned_consistent seed w w' b' [] e); auto;
      apply (dec_add_two_places b amt); auto;
      apply (dec_balance_two_places w); assumption.
  - destruct (withdraw amt w) as [[x | r] w'] eqn:E; [discriminate |].
    intros _. cbn [snd ret].
    rewrite withdraw_dispatch in E.
    destruct (account_type (self w)).
    + apply SavingsAccount_withdraw_returns in E.
      destruct E as (b & b' & e & B & _ & _ & A & _ & _ & Hs & _ & Ht & Hw).
      apply row_written_balance_after in Hw. destruct Hw as (_ & _ & Fb).
      apply (returned_consistent seed w w' b' [] e); auto.
      apply (dec_sub_two_places b amt); auto.
      apply (dec_balance_two_places w); assumption.
    + apply CurrentAccount_withdraw_returns in E.
      destruct E as (b & d & t & b' & e1 & e2 & w1 & B & _ & _ & _ & T & A
                     & _ & Hs & _ & Ht & _ & Hw).
      apply row_written_balance_after in Hw. destruct Hw as (_ & _ & Fb).
      apply (returned_consistent seed w w' b' [e1] e2); auto.
      apply (dec_sub_two_places b t); auto.
      * apply (dec_balance_two_places w); assumption.
      * apply (dec_add_two_places amt CurrentAccount_TRANSACTION_FEE);
          auto.
        unfold two_places. vm_compute. discriminate.
Qed.

(** C1, as amended.  On every account, savings or current, whose balance
    has at most two digits after the point, and for every sequence of
    [deposit] and [withdraw] calls that all return, made with amounts of
    at most two digits after the point, the balance of the account object
    equals the [balance_after] of its most recent ledger row, or the
    balance the account was opened with while it has no row; the balance
    keeps to two digits after the point.  ([set_balance] is not among the
    calls: it assigns the balance and writes no row; and a row holds two
    decimals, so it does not equal a balance that has more.) *)
Theorem ledger_consistent_run (seed : Decimal) (ops : list Operation) :
  forall w : World,
    Forall two_place_call ops ->
    two_place_balance (balance (self w)) ->
    ledger_consistent seed w ->
    successful ops w = true ->
    ledger_consistent seed (run ops w) /\
    two_place_balance (balance (self (run ops w))).
Proof.
  induction ops as [| op rest IH]; intros w Hops Hb Hc Hs;
    cbn [run successful] in *.
  - auto.
  - inversion Hops as [| ? ? Hop Hrest]. subst.
    apply andb_true_iff in Hs. destruct Hs as [Hr Hs].
    destruct (perform_consistent seed op w Hop Hb Hr) as [Hc1 Hb1].
    apply IH; assumption.
Qed.

Lemma ledger_consistent_run_witness :
  Forall two_place_call
    [Deposit (dec "200.00"); Withdraw (dec "100.00");
     Withdraw (dec "600.00")] /\
  two_place_balance (balance (self (savings_world (dec "1000.00") true))) /\
  ledger_consistent (dec "1000.00") (savings_world (dec "1000.00") true) /\
  successful
    [Deposit (dec "200.00"); Withdraw (dec "100.00");
     Withdraw (dec "600.00")]
    (savings_world (dec "1000.00") true) = true /\
  ledger_consistent (dec "1000.00")
    (run [Deposit (dec "200.00"); Withdraw (dec "100.00");
          Withdraw (dec "600.00")]
         (savings_world (dec "1000.00") true)).
Proof.
  assert (H1 : Forall two_place_call
                 [Deposit (dec "200.00"); Withdraw (dec "100.00");
                  Withdraw (dec "600.00")]).
  { repeat constructor; vm_compute; discriminate. }
  assert (H2 : two_place_balance
                 (balance (self (savings_world (dec "1000.00") true)))).
  { vm_compute. discriminate. }
  assert (H3 : ledger_consistent (dec "1000.00")
                 (savings_world (dec "1000.00") true)).
  { vm_compute. reflexivity. }
  assert (H4 : successful
                 [Deposit (dec "200.00"); Withdraw (dec "100.00");
                  Withdraw (dec "600.00")]
                 (savings_world (dec "1000.00") true) = true).
  { vm_compute. reflexivity. }
  split; [exact H1 |]. split; [exact H2 |]. split; [exact H3 |].
  split; [exact H4 |].
  exact (proj1 (ledger_consistent_run (dec "1000.00") _ _ H1 H2 H3 H4)).
Defined.

(** C1 as stated fails in two ways.  On a savings account opened with
    1000.00, after a deposit of 100.00 the balance and the last row both
    read 1100.00; [set_balance(Decimal('5.00'))] then returns, leaves the
    balance at 5.00 and the last row at 1100.00.  And on the same account
    a deposit of 0.001 returns and leaves the balance at 1000.001, while
    the row it wrote holds 1000.00 as [balance_after]. *)
Lemma ledger_consistency_broken :
  (ledger_consistent (dec "1000.00")
     (run [Deposit (dec "100.00")] (savings_world (dec "1000.00") true)) /\
   fst (set_balance (dec "5.00")
          (run [Deposit (dec "100.00")]
               (savings_world (dec "1000.00") true))) = inr tt /\
   ~ ledger_consistent (dec "1000.00")
       (snd (set_balance (dec "5.00")
               (run [Deposit (dec "100.00")]
                    (savings_world (dec "1000.00") true))))) /\
  (ledger_consistent (dec "1000.00") (savings_world (dec "1000.00") true) /\
   successful [Deposit (dec "0.001")] (savings_world (dec "1000.00") true)
     = true /\
   balance (self (run [Deposit (dec "0.001")]
                      (savings_world (dec "1000.00") true)))
     = Dec (dec "1000.001") /\
   last_balance_after (dec "1000.00")
     (transactions (run [Deposit (dec "0.001")]
                        (savings_world (dec "1000.00") true)))
     = dec "1000.00" /\
   ~ ledger_consistent (dec "1000.00")
       (run [Deposit (dec "0.001")] (savings_world (dec "1000.00") true))).
Proof.
  split.
  - split; [vm_compute; reflexivity |]. split; [vm_compute; reflexivity |].
    intro H. vm_compute in H. discriminate.
  - split; [vm_compute; reflexivity |]. split; [vm_compute; reflexivity |].
    split; [vm_compute; reflexivity |]. split; [vm_compute; reflexivity |].
    intro H. vm_compute in H. discriminate.
Qed.

(* ===================================================================== *)
(** ** Withdrawals from a savings account *)
(* ===================================================================== *)






(* ===================================================================== *)
(** ** Withdrawals from a current account *)
(* ===================================================================== *)





(** C10, as amended.  On a current account whose balance and requested
    amount are plain values (every money value is one), a withdrawal that
    returns has passed the overdraft check on [balance - amount] alone,
    has then deducted the amount and the fee of 10.00, and leaves a
    balance of at least [-(OVERDRAFT_LIMIT + TRANSACTION_FEE)] =
    -10010.00.  The bound is tight: from a balance of 0.00 a withdrawal
    of 9995.00 returns and leaves -10005.00, strictly between -10010.00
    and -10000.00. *)
Theorem CurrentAccount_withdraw_floor :
  (forall (w w' : World) (amt b : Decimal) (r : bool),
      account_type (self w) = CURRENT ->
      balance (self w) = Dec b ->
      plain b -> plain amt ->
      withdraw amt w = (inr r, w') ->
      exists d b',
        dec_sub b amt = inr d /\
        ~ dec_lt d (dec_neg CurrentAccount_OVERDRAFT_LIMIT) /\
        balance (self w') = Dec b' /\
        (value b' == value b - (value amt + 10))%Q /\
        dec_le (dec "-10010.00") b' /\
        (- (10000 + 10) <= value b')%Q) /\
  (exists w' b',
      withdraw (dec "9995.00") (current_world (dec "0.00") true)
        = (inr true, w') /\
      balance (self w') = Dec b' /\ b' = dec "-10005.00" /\
      dec_lt (dec "-10010.00") b' /\
      dec_lt b' (dec "-10000.00")).
Proof.
  split.
  - intros w w' amt b r Hty Hb Mb Ma E.
    rewrite withdraw_dispatch, Hty in E.
    apply CurrentAccount_withdraw_returns in E.
    destruct E as (b0 & d & t & b' & e1 & e2 & w1 & B & P & D & Ov & T & A
                   & R & Hs & _).
    assert (b0 = b) by congruence. subst b0.
    destruct (saved_with_fields b' w) as (Hb' & _).
    destruct (plain_sub b amt Mb Ma) as (d' & D' & _ & _ & Vd).
    assert (d' = d) by congruence. subst d'.
    destruct (plain_debit b amt Mb Ma) as (t' & r' & T' & S' & V).
    assert (t' = t) by congruence. subst t'.
    assert (r' = b') by congruence. subst r'.
    apply dec_ltb_nlt in Ov.
    assert (Hfloor : (- (10000 + 10) <= value b')%Q).
    { rewrite dec_lt_value, Vd in Ov.
      assert (L : (value (dec_neg CurrentAccount_OVERDRAFT_LIMIT)
                   == - 10000)%Q) by reflexivity.
      rewrite L in Ov. apply Qnot_lt_le in Ov.
      rewrite V. lra. }
    exists d, b'. split; [exact D |]. split; [exact Ov |].
    split; [rewrite Hs; exact Hb' |]. split; [exact V |].
    split; [| exact Hfloor].
    apply dec_le_value.
    assert (L : (value (dec "-10010.00") == - (10000 + 10))%Q)
      by reflexivity.
    rewrite L. exact Hfloor.
  - eexists. eexists. split; [vm_compute; reflexivity |].
    repeat split; reflexivity.
Qed.

Lemma CurrentAccount_withdraw_floor_witness :
  account_type (self (current_world (dec "-9000.00") true)) = CURRENT /\
  balance (self (current_world (dec "-9000.00") true))
    = Dec (dec "-9000.00") /\
  plain (dec "-9000.00") /\ plain (dec "1000.00") /\
  exists b',
    balance (self (snd (withdraw (dec "1000.00")
                          (current_world (dec "-9000.00") true))))
      = Dec b' /\
    dec_le (dec "-10010.00") b'.
Proof.
  assert (H1 : account_type (self (current_world (dec "-9000.00") true))
               = CURRENT) by reflexivity.
  assert (H2 : balance (self (current_world (dec "-9000.00") true))
               = Dec (dec "-9000.00")) by reflexivity.
  assert (H3 : plain (dec "-9000.00")).
  { split; vm_compute; [discriminate | reflexivity]. }
  assert (H4 : plain (dec "1000.00")).
  { split; vm_compute; [discriminate | reflexivity]. }
  split; [exact H1 |]. split; [exact H2 |]. split; [exact H3 |].
  split; [exact H4 |].
  destruct (proj1 CurrentAccount_withdraw_floor
              (current_world (dec "-9000.00") true)
              (snd (withdraw (dec "1000.00")
                      (current_world (dec "-9000.00") true)))
              (dec "1000.00") (dec "-9000.00") true H1 H2 H3 H4)
    as (d & b' & _ & _ & B & _ & L & _).
  { vm_compute. reflexivity. }
  exists b'. split; [exact B | exact L].
Defined.

(** C10 as stated fails outside the plain values, where the context
    rounds the differences to 28 digits.  On a current account opened
    with 0.00, a deposit of 0.00000000000000000000001 returns; a
    withdrawal of 10000.000000000000000000000015 then passes the overdraft
    check, returns, and leaves the balance at
    -10010.00000000000000000000001, below -10010.00. *)
Lemma CurrentAccount_withdraw_below_floor :
  exists w1 w' b',
    deposit (dec "0.00000000000000000000001")
      (current_world (dec "0.00") true) = (inr true, w1) /\
    account_type (self w1) = CURRENT /\
    withdraw (dec "10000.000000000000000000000015") w1 = (inr true, w') /\
    balance (self w') = Dec b' /\
    b' = dec "-10010.00000000000000000000001" /\
    dec_lt b' (dec "-10010.00") /\
    ~ dec_le (dec "-10010.00") b'.
Proof.
  eexists. eexists. eexists. split; [vm_compute; reflexivity |].
  split; [reflexivity |]. split; [vm_compute; reflexivity |].
  split; [reflexivity |]. split; [reflexivity |].
  split; [reflexivity |]. vm_compute. intro H. apply H. reflexivity.
Qed.

(** C2, the code at the failing input.  A current account with balance
    0.00 accepts a withdrawal of 10000.00: the overdraft check looks at
    [balance - amount], which is exactly -10000.00, and the fee is
    deducted after it.  The balance ends at -10010.00, below
    [-OVERDRAFT_LIMIT], and the last row holds it. *)
Lemma CurrentAccount_withdraw_below_overdraft_limit :
  exists w' b',
    withdraw (dec "10000.00") (current_world (dec "0.00") true)
      = (inr true, w') /\
    balance (self w') = Dec b' /\ b' = dec "-10010.00" /\
    last_balance_after (dec "0.00") (transactions w') = dec "-10010.00" /\
    dec_lt b' (dec_neg CurrentAccount_OVERDRAFT_LIMIT).
Proof.
  eexists. eexists. split; [vm_compute; reflexivity |].
  repeat split; reflexivity.
Qed.

(* ===================================================================== *)
(** ** Failed calls *)
(* ===================================================================== *)

(** C6, as amended.  On every account, when [deposit] or [withdraw]
    raises a [ValueError], that is, refuses the call for one of the
    reasons the methods check (amount not positive, withdrawal limit,
    minimum balance, overdraft), the world after the call is the world
    before it: the balance is what it was and no ledger row has been
    written.  (A call that fails later, in the write of a row, is not
    undone.) *)
Theorem failed_operation_changes_nothing (amt : Decimal) (w : World)
    (msg : string) :
  (fst (deposit amt w) = inl (ValueError msg) ->
   snd (deposit amt w) = w /\
   balance (self (snd (deposit amt w))) = balance (self w) /\
   transactions (snd (deposit amt w)) = transactions w) /\
  (fst (withdraw amt w) = inl (ValueError msg) ->
   snd (withdraw amt w) = w /\
   balance (self (snd (withdraw amt w))) = balance (self w) /\
   transactions (snd (withdraw amt w)) = transactions w).
Proof.
  assert (Same : forall w' : World, w' = w ->
            w' = w /\ balance (self w') = balance (self w) /\
            transactions w' = transactions w).
  { intros w' E. subst. auto. }
  split; intro H.
  - apply Same. rewrite deposit_dispatch in *.
    destruct (account_type (self w)).
    + destruct (SavingsAccount_deposit amt w) as [x w'] eqn:E.
      cbn [fst snd] in *. subst x.
      apply SavingsAccount_deposit_ValueError in E. apply E.
    + destruct (CurrentAccount_deposit amt w) as [x w'] eqn:E.
      cbn [fst snd] in *. subst x.
      apply CurrentAccount_deposit_ValueError in E. apply E.
  - apply Same. rewrite withdraw_dispatch in *.
    destruct (account_type (self w)).
    + destruct (SavingsAccount_withdraw amt w) as [x w'] eqn:E.
      cbn [fst snd] in *. subst x.
      apply SavingsAccount_withdraw_ValueError in E. apply E.
    + destruct (CurrentAccount_withdraw amt w) as [x w'] eqn:E.
      cbn [fst snd] in *. subst x.
      apply CurrentAccount_withdraw_ValueError in E. apply E.
Qed.

Lemma failed_operation_changes_nothing_witness :
  fst (withdraw (dec "600.00") (savings_world (dec "1000.00") true))
    = inl InsufficientBalance /\
  fst (deposit (dec "-5.00") (savings_world (dec "1000.00") true))
    = inl InvalidAmount_deposit /\
  snd (withdraw (dec "600.00") (savings_world (dec "1000.00") true))
    = savings_world (dec "1000.00") true /\
  snd (deposit (dec "-5.00") (savings_world (dec "1000.00") true))
    = savings_world (dec "1000.00") true.
Proof.
  assert (H1 : fst (withdraw (dec "600.00")
                      (savings_world (dec "1000.00") true))
               = inl InsufficientBalance) by reflexivity.
  assert (H2 : fst (deposit (dec "-5.00")
                      (savings_world (dec "1000.00") true))
               = inl InvalidAmount_deposit) by reflexivity.
  split; [exact H1 |]. split; [exact H2 |]. split.
  - exact (proj1 (proj2 (failed_operation_changes_nothing
                           (dec "600.00")
                           (savings_world (dec "1000.00") true)
                           _) H1)).
  - exact (proj1 (proj1 (failed_operation_changes_nothing
                           (dec "-5.00")
                           (savings_world (dec "1000.00") true)
                           _) H2)).
Defined.

(** C6 as stated fails on a call that fails after its checks.  When the
    random source repeats itself, the withdrawal of 500.00 from a current
    account with balance 0.00 raises the [IntegrityError] of the second
    insert, and it is not a no-op: the balance is -510.00 and the
    WITHDRAWAL row is in the ledger.  On a savings account whose only row
    carries the id that is drawn again, a deposit of 50.00 raises and
    leaves the balance at 1150.00 with no row for it. *)
Lemma failed_write_is_not_undone :
  (exists e w',
      withdraw (dec "500.00") (current_world_repeating (dec "0.00"))
        = (inl e, w') /\
      e = duplicate_transaction_id /\
      balance (self (current_world_repeating (dec "0.00")))
        = Dec (dec "0.00") /\
      balance (self w') = Dec (dec "-510.00") /\
      transactions (current_world_repeating (dec "0.00")) = [] /\
      List.length (transactions w') = 1%nat) /\
  (exists w1 e w',
      deposit (dec "100.00") (savings_world_repeating (dec "1000.00"))
        = (inr true, w1) /\
      deposit (dec "50.00") w1 = (inl e, w') /\
      e = duplicate_transaction_id /\
      balance (self w1) = Dec (dec "1100.00") /\
      balance (self w') = Dec (dec "1150.00") /\
      transactions w' = transactions w1).
Proof.
  split.
  - eexists. eexists. split; [vm_compute; reflexivity |].
    repeat split; reflexivity.
  - eexists. eexists. eexists. split; [vm_compute; reflexivity |].
    split; [vm_compute; reflexivity |]. repeat split; reflexivity.
Qed.

(* ===================================================================== *)
(** ** Validation of the amount *)
(* ===================================================================== *)



(* ===================================================================== *)
(** ** The [is_active] flag *)
(* ===================================================================== *)

(** C5, as amended.  [deposit] and [withdraw], on savings and on current
    accounts, neither read nor write [is_active]: run on the account with
    its flag set to any value, a call returns or raises exactly what it
    does on the account as it is, and leaves the same balance, the same
    ledger rows and the flag it found.  An inactive account is served
    like an active one. *)
Theorem is_active_not_consulted (f : bool) (amt : Decimal) (w : World) :
  deposit amt (world_with_active f w) =
    (fst (deposit amt w), world_with_active f (snd (deposit amt w))) /\
  withdraw amt (world_with_active f w) =
    (fst (withdraw amt w), world_with_active f (snd (withdraw amt w))).
Proof.
  rewrite !deposit_dispatch, !withdraw_dispatch.
  change (account_type (self (world_with_active f w)))
    with (account_type (self w)).
  destruct (account_type (self w)); split.
  - apply SavingsAccount_deposit_flag.
  - apply SavingsAccount_withdraw_flag.
  - apply CurrentAccount_deposit_flag.
  - apply CurrentAccount_withdraw_flag.
Qed.

(** C5 as stated fails: a savings account with [is_active = False] and a
    balance of 1000.00 accepts a deposit of 100.00 and a withdrawal of
    100.00, and a current account in the same state accepts them too; the
    balance moves and rows are written. *)
Lemma inactive_account_accepts_operations :
  is_active (self (savings_world (dec "1000.00") false)) = false /\
  (exists w',
      deposit (dec "100.00") (savings_world (dec "1000.00") false)
        = (inr true, w') /\
      balance (self w') = Dec (dec "1100.00") /\
      List.length (transactions w') = 1%nat) /\
  (exists w',
      withdraw (dec "100.00") (savings_world (dec "1000.00") false)
        = (inr true, w') /\
      balance (self w') = Dec (dec "900.00") /\
      List.length (transactions w') = 1%nat) /\
  (exists w',
      deposit (dec "100.00") (current_world (dec "1000.00") false)
        = (inr true, w') /\
      balance (self w') = Dec (dec "1100.00")) /\
  (exists w',
      withdraw (dec "100.00") (current_world (dec "1000.00") false)
        = (inr true, w') /\
      balance (self w') = Dec (dec "890.00") /\
      List.length (transactions w') = 2%nat).
Proof.
  split; [reflexivity |].
  repeat split; eexists; (split; [vm_compute; reflexivity |]);
    repeat split; reflexivity.
Qed.

(* ===================================================================== *)
(** ** Monthly interest *)
(* ===================================================================== *)




(* ===================================================================== *)
(** ** Account numbers *)
(* ===================================================================== *)

(** [save] draws one number and inserts under it or fails: whatever the
    table holds, no second number is drawn. *)
Lemma Account_save_new_once (ty : AccountType) (initial : Decimal)
    (r : Rng) (db : Db.Tables) :
  let n := fst (generate_account_number r) in
  let r' := snd (generate_account_number r) in
  let a := mkAccount n ty initial true in
  (Db.number_taken n (Db.rows_of ty db) = true ->
   exists msg,
     Db.Account_save_new (Db.new_account ty initial) r db
       = (inl (IntegrityError msg), r', db)) /\
  (Db.number_taken n (Db.rows_of ty db) = false ->
   exists db',
     Db.Account_save_new (Db.new_account ty initial) r db
       = (inr a, r', db') /\
     Db.rows_of ty db' = (Db.rows_of ty db ++ [a])%list).
Proof.
  intros n r' a. subst n r' a.
  unfold Db.Account_save_new, Db.new_account, assign_account_number.
  cbn [account_number]. cbn [String.eqb].
  destruct (generate_account_number r) as [n r'].
  cbn [fst snd with_account_number account_number account_type balance
       is_active].
  unfold Db.insert_row, with_account_number.
  cbn [account_number account_type balance is_active].
  split; intro H; rewrite H.
  - eexists. reflexivity.
  - eexists. split; [reflexivity |]. destruct ty; reflexivity.
Qed.

Lemma number_taken_In (n : string) (rows : list AccountRow) :
  Db.number_taken n rows = false -> ~ In n (map account_number rows).
Proof.
  unfold Db.number_taken. induction rows as [| a rows IH]; cbn.
  - auto.
  - destruct (String.eqb_spec (account_number a) n) as [E | N]; cbn.
    + discriminate.
    + intros H [E | I]; [congruence | exact (IH H I)].
Qed.

(** The unique index does its work inside each table: an insert keeps the
    numbers of a table distinct. *)
Lemma insert_row_unique (a : AccountRow) (db db' : Db.Tables) :
  NoDup (map account_number (Db.savings_rows db)) ->
  NoDup (map account_number (Db.current_rows db)) ->
  Db.insert_row a db = inr db' ->
  NoDup (map account_number (Db.savings_rows db')) /\
  NoDup (map account_number (Db.current_rows db')).
Proof.
  intros Hs Hc. unfold Db.insert_row.
  destruct (Db.number_taken _ _) eqn:T; [discriminate |].
  apply number_taken_In in T. intro E. inversion E. subst db'. clear E.
  assert (App : forall l, NoDup l -> ~ In (account_number a) l ->
                          NoDup (l ++ [account_number a])).
  { intros l Hl Hn.
    apply NoDup_app; [exact Hl | repeat constructor; auto |].
    intros x Hx [Ex | []]. subst. contradiction. }
  destruct (account_type a);
    cbn [Db.savings_rows Db.current_rows Db.rows_of] in *;
    rewrite map_app; cbn [map]; split; auto.
Qed.

(** C7, the code at the failing input.  A generated account number is
    always twelve characters, each a decimal digit.  It is drawn once and
    is not compared with any existing number: when the random source
    repeats itself, a new savings account and a new current account are
    both saved under the number 000000000000, and a third account, whose
    number meets the same one in its own table, is not given another
    number: its [save] ends in the [IntegrityError] of the insert. *)
Lemma account_number_collision :
  (forall r : Rng,
      String.length (fst (generate_account_number r)) = 12%nat /\
      Forall (fun c => In c string_digits)
             (list_ascii_of_string (fst (generate_account_number r)))) /\
  (exists a1 a2 r1 r2 r3 db1 db2 msg,
      Db.Account_save_new (Db.new_account SAVINGS (dec "500.00"))
        stuck_rng Db.empty = (inr a1, r1, db1) /\
      Db.Account_save_new (Db.new_account CURRENT (dec "1000.00"))
        r1 db1 = (inr a2, r2, db2) /\
      a1 <> a2 /\
      In a1 (Db.all_rows db2) /\ In a2 (Db.all_rows db2) /\
      account_number a1 = "000000000000" /\
      account_number a2 = "000000000000" /\
      Db.Account_save_new (Db.new_account CURRENT (dec "2000.00"))
        r2 db2 = (inl (IntegrityError msg), r3, db2)).
Proof.
  split.
  - intro r. split; [reflexivity |].
    unfold generate_account_number, random_choices.
    cbn [fst map seq]. rewrite list_ascii_of_string_of_list_ascii.
    repeat (constructor; [apply digit_pick |]). constructor.
  - do 8 eexists.
    split; [vm_compute; reflexivity |].
    split; [vm_compute; reflexivity |].
    split; [discriminate |].
    split; [cbn; auto |]. split; [cbn; auto |].
    split; [reflexivity |]. split; [reflexivity |].
    vm_compute. reflexivity.
Qed.

(* ===================================================================== *)
(** ** Deposits, the setter and the getter *)
(* ===================================================================== *)






(* ===================================================================== *)
(** ** The floor of a savings account *)
(* ===================================================================== *)

Lemma dec_le_ltb (a b : Decimal) : dec_le a b <-> dec_ltb b a = false.
Proof.
  unfold dec_le, dec_ltb. rewrite (dec_compare_antisym a b).
  destruct (dec_compare a b); cbn; split; intro; congruence.
Qed.

(** X3.  A withdrawal from a savings account that succeeds was of a
    positive amount of at most WITHDRAWAL_LIMIT, and leaves a balance of
    at least the [get_minimum_balance()] of the account, 500.00.  The
    check is made on the very number that becomes the balance, so this
    holds for every balance and amount. *)
Theorem SavingsAccount_withdraw_keeps_minimum (w w' : World)
    (amt : Decimal) (r : bool) :
  account_type (self w) = SAVINGS ->
  withdraw amt w = (inr r, w') ->
  get_minimum_balance w' = (inr (dec "500.00"), w') /\
  (exists b', balance (self w') = Dec b' /\ dec_le (dec "500.00") b') /\
  dec_lt (Decimal_of_int 0) amt /\
  dec_le amt SavingsAccount_WITHDRAWAL_LIMIT.
Proof.
  intros Hty E. rewrite withdraw_dispatch, Hty in E.
  apply SavingsAccount_withdraw_returns in E.
  destruct E as (b & b' & e & B & P & L & A & Mn & R & Hs & _).
  destruct (saved_with_fields b' w) as (Hb' & Ht & _).
  split; [| split; [| split]].
  - unfold get_minimum_balance, bind, get_self. rewrite Hs, Ht, Hty.
    reflexivity.
  - exists b'. split; [rewrite Hs; exact Hb' |].
    apply dec_le_ltb. exact Mn.
  - apply not_le_lt_zero, P.
  - apply dec_le_ltb. exact L.
Qed.

Lemma SavingsAccount_withdraw_keeps_minimum_witness :
  account_type (self (savings_world (dec "1000.00") true)) = SAVINGS /\
  exists b',
    balance (self (snd (withdraw (dec "500.00")
                          (savings_world (dec "1000.00") true))))
      = Dec b' /\
    dec_le (dec "500.00") b'.
Proof.
  assert (H : account_type (self (savings_world (dec "1000.00") true))
              = SAVINGS) by reflexivity.
  split; [exact H |].
  apply (SavingsAccount_withdraw_keeps_minimum
           (savings_world (dec "1000.00") true)
           (snd (withdraw (dec "500.00")
                   (savings_world (dec "1000.00") true)))
           (dec "500.00") true H).
  vm_compute. reflexivity.
Defined.

(* ===================================================================== *)
(** ** What a sequence of calls never does *)
(* ===================================================================== *)

(** X4.  Whatever calls are made on an account, successful or not, its
    rows are only added to: the rows it had are the first rows it has
    afterwards, unchanged and in order; its class and its [is_active]
    flag are as before; and an account that has a number keeps it. *)
Theorem run_appends_only (ops : list Operation) (w : World) :
  account_number (self w) <> "" ->
  (exists rows,
     transactions (run ops w) = (transactions w ++ rows)%list) /\
  account_number (self (run ops w)) = account_number (self w) /\
  account_type (self (run ops w)) = account_type (self w) /\
  is_active (self (run ops w)) = is_active (self w).
Proof.
  intro Hn.
  destruct (run_served ops w) as (T & A & K & rows & R & F & N).
  split; [exists rows; exact R | auto].
Qed.

Lemma run_appends_only_witness :
  account_number (self (savings_world (dec "1000.00") true)) <> "" /\
  account_number
    (self (run [Deposit (dec "10.00"); Withdraw (dec "99999.00"); Interest]
               (savings_world (dec "1000.00") true)))
    = "100000000001".
Proof.
  assert (H : account_number (self (savings_world (dec "1000.00") true))
              <> "") by discriminate.
  split; [exact H |].
  destruct (run_appends_only
              [Deposit (dec "10.00"); Withdraw (dec "99999.00"); Interest]
              (savings_world (dec "1000.00") true) H) as (_ & E & _).
  rewrite E. reflexivity.
Defined.

(** X5.  Every row a sequence of calls adds to an account is a row of
    that account: the foreign key of its class holds the number of the
    account and the other one is empty, so that [Transaction.account]
    resolves to the account and the admin column shows its number, never
    N/A.  Its amount and its [balance_after] are held with two decimals
    and at most twelve digits, the amount is not negative, its type is
    DEPOSIT, WITHDRAWAL or FEE, and its [transaction_id] is TXN followed
    by ten digits. *)
Theorem run_rows_belong_to_account (ops : list Operation) (w : World) :
  exists rows,
    transactions (run ops w) = (transactions w ++ rows)%list /\
    Forall (fun e =>
              written_for (self (run ops w)) e /\
              Transaction_account e
                = Some (account_number (self (run ops w))) /\
              TransactionAdmin_get_account e
                = account_number (self (run ops w)))
           rows.
Proof.
  destruct (run_served ops w) as (T & A & K & rows & R & F & N).
  exists rows. split; [exact R |].
  eapply Forall_impl; [| exact F].
  intros e He. split; [exact He |]. apply written_for_account, He.
Qed.

(* ===================================================================== *)
(** ** Interest on a balance that is not positive *)
(* ===================================================================== *)

(** X6.  [calculate_interest] returns only on a balance that is a
    positive [Decimal], with a positive interest.  On a [Decimal] balance
    that is zero or negative the interest is not positive and [deposit]
    refuses it with its must-be-positive error, unless the arithmetic
    itself raises; on a balance that is still the float default of the
    field the product raises [TypeError].  In each of these cases nothing
    is changed. *)
Theorem calculate_interest_needs_positive_balance (w : World) :
  (forall b,
      balance (self w) = Dec b -> dec_le b (Decimal_of_int 0) ->
      calculate_interest w = (inl InvalidAmount_deposit, w) \/
      exists s, calculate_interest w = (inl (DecimalException s), w)) /\
  (forall x,
      balance (self w) = Float x ->
      calculate_interest w = (inl (unsupported_operand "*"), w)) /\
  (forall w' r,
      calculate_interest w = (inr r, w') ->
      exists b, balance (self w) = Dec b /\
                dec_lt (Decimal_of_int 0) b /\
                dec_lt (Decimal_of_int 0) r).
Proof.
  assert (Fail : forall b,
             balance (self w) = Dec b -> (coef b <= 0)%Z ->
             calculate_interest w = (inl InvalidAmount_deposit, w) \/
             exists s, calculate_interest w = (inl (DecimalException s), w)).
  { intros b B Hb. rewrite calculate_interest_cases, B.
    cbn [number_mul].
    destruct (dec_mul b SavingsAccount_INTEREST_RATE) as [s | p] eqn:Mu;
      cbn [trapped]; [right; eauto |].
    destruct (dec_div p (Decimal_of_int 12)) as [s | i] eqn:Dv;
      cbn [trapped]; [right; eauto |].
    left. rewrite SavingsAccount_deposit_cases.
    assert (Hi : (coef i <= 0)%Z).
    { apply (monthly_interest_nonpositive b); [exact Hb |].
      unfold monthly_interest. rewrite Mu. exact Dv. }
    rewrite dec_leb_zero. apply Z.leb_le in Hi. rewrite Hi. reflexivity. }
  split; [| split].
  - intros b B Hb. apply (Fail b B).
    apply dec_leb_le in Hb. rewrite dec_leb_zero in Hb.
    apply Z.leb_le, Hb.
  - intros x B. rewrite calculate_interest_cases, B. reflexivity.
  - intros w' r E.
    pose proof E as E0.
    rewrite calculate_interest_cases in E.
    destruct (number_mul "*" (balance (self w))
                SavingsAccount_INTEREST_RATE) as [x | p] eqn:Mu;
      [discriminate |].
    apply number_mul_returns in Mu. destruct Mu as (b & B & Mu).
    destruct (trapped (dec_div p (Decimal_of_int 12))) as [x | i] eqn:Dv;
      [discriminate |].
    destruct (SavingsAccount_deposit i w) as [[x | t] w1] eqn:D;
      [discriminate |].
    inversion E. subst.
    exists b. split; [exact B |]. split.
    + apply dec_lt_zero.
      destruct (Z.lt_ge_cases 0 (coef b)) as [P | NP]; [exact P |].
      exfalso.
      destruct (Fail b B) as [F | (s & F)]; [lia | |]; congruence.
    + apply SavingsAccount_deposit_returns in D.
      destruct D as (_ & _ & _ & _ & P & _).
      apply not_le_lt_zero, P.
Qed.

Lemma calculate_interest_needs_positive_balance_witness :
  dec_le (dec "0.00") (Decimal_of_int 0) /\
  calculate_interest (savings_world (dec "0.00") true)
    = (inl InvalidAmount_deposit, savings_world (dec "0.00") true) /\
  calculate_interest (default_world SAVINGS)
    = (inl (unsupported_operand "*"), default_world SAVINGS).
Proof.
  assert (H : dec_le (dec "0.00") (Decimal_of_int 0))
    by (vm_compute; discriminate).
  split; [exact H |]. split.
  - destruct (proj1 (calculate_interest_needs_positive_balance
                       (savings_world (dec "0.00") true))
                    (dec "0.00") eq_refl H) as [E | (s & E)].
    + exact E.
    + exfalso. vm_compute in E. discriminate E.
  - exact (proj1 (proj2 (calculate_interest_needs_positive_balance
                           (default_world SAVINGS))) 0%Q eq_refl).
Defined.

(* ===================================================================== *)
(** ** A deposit followed by a withdrawal of the same amount *)
(* ===================================================================== *)

(** X7.  On plain values, when a deposit and a withdrawal of the same
    amount that follows it both return, a savings account has its balance
    back and a current account ends 10 lower, the fee of the withdrawal.
    The ledger has gained the DEPOSIT row and the rows of the withdrawal,
    one on a savings account and two on a current account. *)
Theorem deposit_then_withdraw (w w1 w2 : World) (amt b : Decimal)
    (r1 r2 : bool) :
  balance (self w) = Dec b ->
  plain b -> plain amt ->
  deposit amt w = (inr r1, w1) ->
  withdraw amt w1 = (inr r2, w2) ->
  exists b2,
    balance (self w2) = Dec b2 /\
    match account_type (self w) with
    | SAVINGS =>
        (value b2 == value b)%Q /\
        List.length (transactions w2)
          = (List.length (transactions w) + 2)%nat
    | CURRENT =>
        (value b2 == value b - 10)%Q /\
        List.length (transactions w2)
          = (List.length (transactions w) + 3)%nat
    end.
Proof.
  intros B Pb Pa E1 E2.
  apply deposit_returns in E1.
  destruct E1 as (b0 & b1 & e & B0 & _ & A & _ & Hs1 & Ht1 & _).
  assert (b0 = b) by congruence. subst b0.
  assert (Ty1 : account_type (self w1) = account_type (self w)).
  { destruct (saved_with_fields b1 w) as (_ & T & _). rewrite Hs1.
    exact T. }
  assert (Bw1 : balance (self w1) = Dec b1).
  { destruct (saved_with_fields b1 w) as (T & _). rewrite Hs1. exact T. }
  destruct (plain_add b amt Pb Pa) as (r' & A' & Sc & Se & V1).
  assert (r' = b1) by congruence. subst r'.
  pose proof (plain_bounds b Pb) as [Eb Cb].
  pose proof (plain_bounds amt Pa) as [Ea Ca].
  rewrite withdraw_dispatch, Ty1 in E2.
  destruct (account_type (self w)).
  - apply SavingsAccount_withdraw_returns in E2.
    destruct E2 as (b1' & b2 & e2 & B1 & _ & _ & S & _ & _ & Hs2 & _ & Ht2
                    & _).
    assert (b1' = b1) by congruence. subst b1'.
    destruct (saved_with_fields b2 w1) as (Hb2 & _).
    exists b2. split; [rewrite Hs2; exact Hb2 |].
    destruct (sub_unrounded 16 b1 amt scale16 Se Ea) as (r' & S' & _ & _ & V2).
    { rewrite Sc.
      change (10 ^ prec)%Z with 10000000000000000000000000000%Z. lia. }
    assert (r' = b2) by congruence. subst r'.
    split; [rewrite V2, V1; ring |].
    rewrite Ht2, Ht1, !length_app. cbn. lia.
  - apply CurrentAccount_withdraw_returns in E2.
    destruct E2 as (b1' & d & t & b2 & e1 & e2 & w3 & B1 & _ & _ & _ & T & S
                    & _ & Hs2 & _ & Ht2 & _).
    assert (b1' = b1) by congruence. subst b1'.
    destruct (saved_with_fields b2 w1) as (Hb2 & _).
    exists b2. split; [rewrite Hs2; exact Hb2 |].
    destruct (plain_add_fee amt Pa) as (t' & T' & Tc & Te & Vt).
    assert (t' = t) by congruence. subst t'.
    destruct (sub_unrounded 16 b1 t scale16 Se Te) as (r' & S' & _ & _ & V2).
    { rewrite Sc, Tc.
      change (10 ^ prec)%Z with 10000000000000000000000000000%Z. lia. }
    assert (r' = b2) by congruence. subst r'.
    split; [rewrite V2, V1, Vt; ring |].
    rewrite Ht2, Ht1, !length_app. cbn. lia.
Qed.

Lemma deposit_then_withdraw_witness :
  balance (self (savings_world (dec "750.00") true)) = Dec (dec "750.00") /\
  plain (dec "750.00") /\ plain (dec "1234.56") /\
  exists w1 w2 b2,
    deposit (dec "1234.56") (savings_world (dec "750.00") true)
      = (inr true, w1) /\
    withdraw (dec "1234.56") w1 = (inr true, w2) /\
    balance (self w2) = Dec b2 /\
    (value b2 == value (dec "750.00"))%Q.
Proof.
  assert (H1 : balance (self (savings_world (dec "750.00") true))
               = Dec (dec "750.00")) by reflexivity.
  assert (H2 : plain (dec "750.00")).
  { split; vm_compute; [discriminate | reflexivity]. }
  assert (H3 : plain (dec "1234.56")).
  { split; vm_compute; [discriminate | reflexivity]. }
  split; [exact H1 |]. split; [exact H2 |]. split; [exact H3 |].
  assert (E1 : deposit (dec "1234.56") (savings_world (dec "750.00") true)
               = (inr true,
                  snd (deposit (dec "1234.56")
                         (savings_world (dec "750.00") true))))
    by (vm_compute; reflexivity).
  assert (E2 : withdraw (dec "1234.56")
                 (snd (deposit (dec "1234.56")
                         (savings_world (dec "750.00") true)))
               = (inr true,
                  snd (withdraw (dec "1234.56")
                         (snd (deposit (dec "1234.56")
                                 (savings_world (dec "750.00") true))))))
    by (vm_compute; reflexivity).
  destruct (deposit_then_withdraw _ _ _ _ _ _ _ H1 H2 H3 E1 E2)
    as (b2 & B2 & V & _).
  eexists. eexists. exists b2.
  split; [exact E1 |]. split; [exact E2 |]. split; [exact B2 | exact V].
Defined.

(* ===================================================================== *)
(** ** The total balance of a customer *)
(* ===================================================================== *)

Lemma Forall_filter_keep {A : Type} (P : A -> Prop) (f : A -> bool)
    (l : list A) :
  Forall P l -> Forall P (filter f l).
Proof.
  intro H. apply Forall_forall. intros x Hx.
  apply filter_In in Hx. destruct Hx as [Hin _].
  rewrite Forall_forall in H. apply H, Hin.
Qed.

Lemma filter_length_bound {A : Type} (f : A -> bool) (l : list A) :
  (List.length (filter f l) <= List.length l)%nat.
Proof.
  induction l as [| x l IH]; cbn; [lia |].
  destruct (f x); cbn; lia.
Qed.

(** The running total of [sum] stays exact while it has fewer than 28
    digits: each balance adds at most 10 ^ 12 hundredths. *)
Lemma sum_balances_from (accounts : list AccountRow) :
  forall total : Decimal,
    (-2 <= exp total)%Z ->
    Forall (fun a => money (balance a)) accounts ->
    (Z.abs (scaled 2 total)
     + Z.of_nat (List.length accounts) * 10 ^ 12 < 10 ^ prec)%Z ->
    exists r,
      fold_left (fun t a =>
                   match t with
                   | inl s => inl s
                   | inr t => dec_add t (balance a)
                   end)
                accounts (inr total) = inr r /\
      (value r == value total + sum_values accounts)%Q /\
      (-2 <= exp r)%Z /\
      (Z.abs (scaled 2 r)
       <= Z.abs (scaled 2 total)
          + Z.of_nat (List.length accounts) * 10 ^ 12)%Z.
Proof.
  induction accounts as [| a rest IH]; intros total He Hm Hb.
  - exists total. cbn [fold_left List.length]. unfold sum_values.
    cbn [fold_right]. split; [reflexivity |].
    split; [ring |]. split; [exact He |]. cbn. lia.
  - inversion Hm as [| ? ? Ma Mrest]. subst.
    apply in_field_scaled in Ma. destruct Ma as [Ea Ca].
    cbn [List.length] in Hb. rewrite Nat2Z.inj_succ in Hb.
    assert (P12 : (0 < 10 ^ 12)%Z) by reflexivity.
    assert (N0 : (0 <= Z.of_nat (List.length rest))%Z) by lia.
    destruct (add_unrounded 2 total (balance a) scale2 He Ea)
      as (t & E & Cs & Es & Vt).
    { nia. }
    cbn [fold_left]. rewrite E.
    destruct (IH t) as (r & F & V & Er & Cr); try assumption.
    { rewrite Cs. nia. }
    exists r. split; [exact F |]. split; [| split].
    + rewrite V, Vt. unfold sum_values. cbn [fold_right]. ring.
    + exact Er.
    + cbn [List.length]. rewrite Nat2Z.inj_succ. rewrite Cs in Cr. nia.
Qed.

(** X8.  [get_total_balance] is the sum of the balances of the active
    accounts of the customer, savings and current, and of those only: an
    inactive account adds nothing.  The sum is exact for money balances
    (up to 10 ^ 15 accounts). *)
Theorem get_total_balance_sums_active (savings current : list AccountRow) :
  Forall (fun a => money (balance a)) savings ->
  Forall (fun a => money (balance a)) current ->
  (Z.of_nat (List.length savings + List.length current) <= 10 ^ 15)%Z ->
  exists total,
    get_total_balance savings current = inr total /\
    (value total
     == sum_values (filter is_active savings)
        + sum_values (filter is_active current))%Q.
Proof.
  intros Ms Mc Hn. unfold get_total_balance, sum_balances.
  pose proof (filter_length_bound is_active savings) as Ls.
  pose proof (filter_length_bound is_active current) as Lc.
  rewrite Nat2Z.inj_add in Hn.
  change (10 ^ 15)%Z with 1000000000000000%Z in Hn.
  destruct (sum_balances_from (filter is_active savings)
              (Decimal_of_int 0)) as (s & Fs & Vs & Es & Cs).
  { cbn. lia. }
  { apply Forall_filter_keep, Ms. }
  { change (scaled 2 (Decimal_of_int 0)) with 0%Z.
    change (10 ^ 12)%Z with 1000000000000%Z.
    change (10 ^ prec)%Z with 10000000000000000000000000000%Z. lia. }
  destruct (sum_balances_from (filter is_active current)
              (Decimal_of_int 0)) as (c & Fc & Vc & Ec & Cc).
  { cbn. lia. }
  { apply Forall_filter_keep, Mc. }
  { change (scaled 2 (Decimal_of_int 0)) with 0%Z.
    change (10 ^ 12)%Z with 1000000000000%Z.
    change (10 ^ prec)%Z with 10000000000000000000000000000%Z. lia. }
  change (scaled 2 (Decimal_of_int 0)) with 0%Z in Cs, Cc.
  change (10 ^ 12)%Z with 1000000000000%Z in Cs, Cc.
  rewrite Fs, Fc.
  destruct (add_unrounded 2 s c scale2 Es Ec) as (t & E & _ & _ & Vt).
  { change (10 ^ prec)%Z with 10000000000000000000000000000%Z. lia. }
  exists t. split; [exact E |].
  rewrite Vt, Vs, Vc.
  assert (Z0 : (value (Decimal_of_int 0) == 0)%Q) by reflexivity.
  rewrite Z0. ring.
Qed.

Lemma get_total_balance_sums_active_witness :
  Forall (fun a => money (balance a))
    [mkAccount "100000000001" SAVINGS (dec "1500.00") true;
     mkAccount "100000000002" SAVINGS (dec "9000.00") false] /\
  Forall (fun a => money (balance a))
    [mkAccount "200000000001" CURRENT (dec "-510.00") true] /\
  (Z.of_nat (2 + 1) <= 10 ^ 15)%Z /\
  exists total,
    get_total_balance
      [mkAccount "100000000001" SAVINGS (dec "1500.00") true;
       mkAccount "100000000002" SAVINGS (dec "9000.00") false]
      [mkAccount "200000000001" CURRENT (dec "-510.00") true]
      = inr total /\
    (value total == 990)%Q.
Proof.
  assert (H1 : Forall (fun a : AccountRow => money (balance a))
                 [mkAccount "100000000001" SAVINGS (dec "1500.00") true;
                  mkAccount "100000000002" SAVINGS (dec "9000.00") false]).
  { repeat constructor; vm_compute; discriminate || reflexivity. }
  assert (H2 : Forall (fun a : AccountRow => money (balance a))
                 [mkAccount "200000000001" CURRENT (dec "-510.00") true]).
  { repeat constructor; vm_compute; discriminate || reflexivity. }
  assert (H3 : (Z.of_nat (2 + 1) <= 10 ^ 15)%Z)
    by (vm_compute; discriminate).
  split; [exact H1 |]. split; [exact H2 |]. split; [exact H3 |].
  destruct (get_total_balance_sums_active _ _ H1 H2 H3) as (t & E & V).
  exists t. split; [exact E |]. rewrite V. reflexivity.
Defined.

(* ===================================================================== *)
(** ** The forms in front of the account methods *)
(* ===================================================================== *)

Lemma dec_compare_same_value (a b b' : Decimal) :
  (value b == value b')%Q -> dec_compare a b = dec_compare a b'.
Proof.
  intro E. rewrite !dec_compare_value. rewrite E. reflexivity.
Qed.

Lemma minimum_as_integer :
  (value (Decimal_of_int 500) == value SavingsAccount_MINIMUM_BALANCE)%Q /\
  (value (Decimal_of_int 1000) == value CurrentAccount_MINIMUM_BALANCE)%Q.
Proof. split; reflexivity. Qed.

(** X9.  The account creation form accepts an initial deposit for a
    savings account exactly when it is at least
    [SavingsAccount.MINIMUM_BALANCE], and for a current account exactly
    when it is at least [CurrentAccount.MINIMUM_BALANCE]: the integers
    500 and 1000 of the form are the minimum balances of the models.  An
    accepted deposit is returned as it is.  When the account type is
    absent or is any other string, every deposit is accepted. *)
Theorem clean_initial_deposit_minimum (deposit : Decimal) :
  (clean_initial_deposit (Some "savings") deposit = inr deposit <->
   dec_le SavingsAccount_MINIMUM_BALANCE deposit) /\
  (clean_initial_deposit (Some "current") deposit = inr deposit <->
   dec_le CurrentAccount_MINIMUM_BALANCE deposit) /\
  (forall t, t <> Some "savings" -> t <> Some "current" ->
             clean_initial_deposit t deposit = inr deposit).
Proof.
  destruct minimum_as_integer as [Es Ec].
  split; [| split].
  - rewrite dec_le_ltb. unfold clean_initial_deposit. cbn [String.eqb].
    unfold dec_ltb.
    rewrite (dec_compare_same_value deposit _ _ Es).
    cbn [Ascii.eqb Bool.eqb andb].
    destruct (dec_compare deposit SavingsAccount_MINIMUM_BALANCE);
      cbn; split; intro; congruence.
  - rewrite dec_le_ltb. unfold clean_initial_deposit. cbn [String.eqb].
    unfold dec_ltb.
    rewrite (dec_compare_same_value deposit _ _ Ec).
    cbn [Ascii.eqb Bool.eqb andb].
    destruct (dec_compare deposit CurrentAccount_MINIMUM_BALANCE);
      cbn; split; intro; congruence.
  - intros t Hs Hc. unfold clean_initial_deposit.
    destruct t as [t |]; [| reflexivity].
    destruct (String.eqb_spec t "savings") as [E | _];
      [subst; congruence |].
    destruct (String.eqb_spec t "current") as [E | _];
      [subst; congruence |].
    reflexivity.
Qed.

Lemma clean_initial_deposit_minimum_witness :
  Some "fixed" <> Some "savings" /\ Some "fixed" <> Some "current" /\
  clean_initial_deposit (Some "fixed") (dec "0.01") = inr (dec "0.01").
Proof.
  assert (H1 : Some "fixed" <> Some "savings") by discriminate.
  assert (H2 : Some "fixed" <> Some "current") by discriminate.
  split; [exact H1 |]. split; [exact H2 |].
  exact (proj2 (proj2 (clean_initial_deposit_minimum (dec "0.01")))
               (Some "fixed") H1 H2).
Defined.

(** A positive amount is never refused as not positive. *)
Lemma deposit_not_invalid (amt : Decimal) (w : World) (msg : string) :
  dec_leb amt (Decimal_of_int 0) = false ->
  fst (deposit amt w) <> inl (ValueError msg).
Proof.
  intros H E. rewrite deposit_dispatch in E.
  destruct (account_type (self w)).
  - destruct (SavingsAccount_deposit amt w) as [x w'] eqn:D.
    cbn [fst] in E. subst x.
    apply SavingsAccount_deposit_ValueError in D. destruct D as (_ & _ & P).
    congruence.
  - destruct (CurrentAccount_deposit amt w) as [x w'] eqn:D.
    cbn [fst] in E. subst x.
    apply CurrentAccount_deposit_ValueError in D. destruct D as (_ & _ & P).
    congruence.
Qed.

Lemma withdraw_not_invalid (amt : Decimal) (w : World) :
  dec_leb amt (Decimal_of_int 0) = false ->
  fst (withdraw amt w) <> inl InvalidAmount_withdraw.
Proof.
  intros H E. rewrite withdraw_dispatch in E.
  destruct (account_type (self w)).
  - destruct (SavingsAccount_withdraw amt w) as [x w'] eqn:D.
    cbn [fst] in E. subst x.
    apply SavingsAccount_withdraw_ValueError in D.
    destruct D as (_ & [(_ & P) | [(M & _) | (M & _)]]);
      [congruence | discriminate M | discriminate M].
  - destruct (CurrentAccount_withdraw amt w) as [x w'] eqn:D.
    cbn [fst] in E. subst x.
    apply CurrentAccount_withdraw_ValueError in D.
    destruct D as (_ & [(_ & P) | (M & _)]);
      [congruence | discriminate M].
Qed.

(** X10.  An amount the deposit form accepts is positive, at most
    1000000 and returned as it is, and no check of [deposit] refuses it:
    [deposit] raises no [ValueError] on it, on any account.  An amount the
    withdrawal form accepts is positive, and is never refused by
    [withdraw] as not positive.  The cap of the deposit form is not a rule
    of the accounts: the form refuses every amount above it, and
    [deposit] has no check that does. *)
Theorem form_amounts_pass_the_account (amt : Decimal) :
  (forall a, DepositForm_clean_amount amt = inr a ->
     a = amt /\ dec_lt (Decimal_of_int 0) amt /\
     dec_le amt (Decimal_of_int 1000000) /\
     forall w msg, fst (deposit a w) <> inl (ValueError msg)) /\
  (forall a, WithdrawalForm_clean_amount amt = inr a ->
     a = amt /\ dec_lt (Decimal_of_int 0) amt /\
     forall w, fst (withdraw a w) <> inl InvalidAmount_withdraw) /\
  (dec_lt (Decimal_of_int 1000000) amt ->
   (exists e, DepositForm_clean_amount amt = inl e) /\
   forall w msg, fst (deposit amt w) <> inl (ValueError msg)).
Proof.
  split; [| split].
  - intros a H. unfold DepositForm_clean_amount in H.
    destruct (dec_leb amt (Decimal_of_int 0)) eqn:Hpos; [discriminate |].
    destruct (dec_gtb amt (Decimal_of_int 1000000)) eqn:Hcap;
      [discriminate |].
    inversion H. subst a. split; [reflexivity |].
    split; [apply not_le_lt_zero, Hpos |].
    split; [apply dec_le_ltb, Hcap |].
    intros w msg. apply deposit_not_invalid, Hpos.
  - intros a H. unfold WithdrawalForm_clean_amount in H.
    destruct (dec_leb amt (Decimal_of_int 0)) eqn:Hpos; [discriminate |].
    inversion H. subst a. split; [reflexivity |].
    split; [apply not_le_lt_zero, Hpos |].
    intro w. apply withdraw_not_invalid, Hpos.
  - intro Hcap.
    assert (Hpos : dec_leb amt (Decimal_of_int 0) = false).
    { apply positive_leb, dec_lt_zero.
      apply (dec_lt_pos (Decimal_of_int 1000000) amt);
        [reflexivity | exact Hcap]. }
    split.
    + unfold DepositForm_clean_amount. rewrite Hpos.
      apply dec_ltb_lt in Hcap. unfold dec_gtb. rewrite Hcap. eauto.
    + intros w msg. apply deposit_not_invalid, Hpos.
Qed.

Lemma form_amounts_pass_the_account_witness :
  DepositForm_clean_amount (dec "1000000.00") = inr (dec "1000000.00") /\
  dec_lt (Decimal_of_int 1000000) (dec "1000000.01") /\
  fst (deposit (dec "1000000.00") (savings_world (dec "500.00") true))
    <> inl InvalidAmount_deposit /\
  (exists e, DepositForm_clean_amount (dec "1000000.01") = inl e) /\
  fst (deposit (dec "1000000.01") (savings_world (dec "500.00") true))
    <> inl InvalidAmount_deposit.
Proof.
  assert (H1 : DepositForm_clean_amount (dec "1000000.00")
               = inr (dec "1000000.00")) by reflexivity.
  assert (H2 : dec_lt (Decimal_of_int 1000000) (dec "1000000.01"))
    by reflexivity.
  split; [exact H1 |]. split; [exact H2 |].
  destruct (proj1 (form_amounts_pass_the_account (dec "1000000.00"))
              _ H1) as (_ & _ & _ & D).
  destruct (proj2 (proj2 (form_amounts_pass_the_account
                            (dec "1000000.01"))) H2) as (F & D2).
  split; [apply D |]. split; [exact F | apply D2].
Defined.

(** X11.  The registration form accepts a date of birth exactly when the
    eighteenth birthday, the same month and day eighteen years later, is
    today or earlier in the calendar; so someone born on 29 February is
    accepted from 1 March of the eighteenth year when that year has no
    29 February.  An accepted date is returned as it is, and a date
    accepted today is accepted on every later day. *)
Theorem clean_date_of_birth_eighteen (today dob : date) :
  (clean_date_of_birth today dob = inr dob <->
   date_le (eighteenth_birthday dob) today) /\
  (forall later,
     date_le today later ->
     clean_date_of_birth today dob = inr dob ->
     clean_date_of_birth later dob = inr dob).
Proof.
  assert (Char : forall t,
             clean_date_of_birth t dob = inr dob <->
             date_le (eighteenth_birthday dob) t).
  { intro t. unfold clean_date_of_birth, tuple_ltb, date_le,
      eighteenth_birthday. cbn [fst snd year month day].
    destruct (Z.ltb_spec (month t) (month dob));
      destruct (Z.eqb_spec (month t) (month dob));
      destruct (Z.ltb_spec (day t) (day dob)); cbn [orb andb];
      match goal with
      | |- context [(?a <? 18)%Z] => destruct (Z.ltb_spec a 18)
      end; split; intro H'; try discriminate; try reflexivity; try lia. }
  split; [apply Char |].
  intros later Hl Ht. apply Char. apply Char in Ht.
  unfold date_le, eighteenth_birthday in *. cbn [year month day] in *.
  lia.
Qed.

Lemma clean_date_of_birth_eighteen_witness :
  date_le (mkDate 2026 11 3) (mkDate 2027 1 1) /\
  clean_date_of_birth (mkDate 2026 11 3) (mkDate 2008 11 3)
    = inr (mkDate 2008 11 3) /\
  clean_date_of_birth (mkDate 2027 1 1) (mkDate 2008 11 3)
    = inr (mkDate 2008 11 3).
Proof.
  assert (H1 : date_le (mkDate 2026 11 3) (mkDate 2027 1 1)).
  { unfold date_le. cbn. lia. }
  assert (H2 : clean_date_of_birth (mkDate 2026 11 3) (mkDate 2008 11 3)
               = inr (mkDate 2008 11 3)) by reflexivity.
  split; [exact H1 |]. split; [exact H2 |].
  exact (proj2 (clean_date_of_birth_eighteen
                  (mkDate 2026 11 3) (mkDate 2008 11 3))
               (mkDate 2027 1 1) H1 H2).
Defined.

(* ===================================================================== *)
(** ** The tables of accounts *)
(* ===================================================================== *)

Lemma exists_active_In (n : string) (rows : list AccountRow) :
  exists_active n rows = true <->
  exists a, In a rows /\ account_number a = n /\ is_active a = true.
Proof.
  unfold exists_active. rewrite existsb_exists. split.
  - intros (a & Hin & H). apply andb_true_iff in H. destruct H as [E A].
    apply String.eqb_eq in E. eauto.
  - intros (a & Hin & E & A). exists a. split; [exact Hin |].
    apply andb_true_iff. split; [apply String.eqb_eq, E | exact A].
Qed.

Lemma clean_to_account_In (n : string) (db : Db.Tables) :
  clean_to_account n db = inr n <->
  exists a, In a (Db.all_rows db) /\ account_number a = n /\
            is_active a = true.
Proof.
  unfold clean_to_account, Db.all_rows.
  destruct (exists_active n (Db.savings_rows db)) eqn:Es;
    destruct (exists_active n (Db.current_rows db)) eqn:Ec; cbn;
    (split; [intro H | intros (a & Hin & E & A)]); try reflexivity;
    try discriminate.
  - apply exists_active_In in Es. destruct Es as (a & Hin & R).
    exists a. split; [apply in_or_app; left; exact Hin | exact R].
  - apply exists_active_In in Es. destruct Es as (a & Hin & R).
    exists a. split; [apply in_or_app; left; exact Hin | exact R].
  - apply exists_active_In in Ec. destruct Ec as (a & Hin & R).
    exists a. split; [apply in_or_app; right; exact Hin | exact R].
  - exfalso. apply in_app_or in Hin. destruct Hin as [Hin | Hin].
    + assert (T : exists_active n (Db.savings_rows db) = true)
        by (apply exists_active_In; eauto).
      congruence.
    + assert (T : exists_active n (Db.current_rows db) = true)
        by (apply exists_active_In; eauto).
      congruence.
Qed.

Lemma insert_row_rows (a : AccountRow) (db db' : Db.Tables) :
  Db.insert_row a db = inr db' ->
  In a (Db.all_rows db') /\
  forall x, In x (Db.all_rows db) -> In x (Db.all_rows db').
Proof.
  unfold Db.insert_row, Db.all_rows.
  destruct (Db.number_taken _ _); [discriminate |].
  intro E. inversion E. subst db'. clear E.
  destruct (account_type a); cbn [Db.savings_rows Db.current_rows];
    split; try (intros x Hx; apply in_app_or in Hx; destruct Hx);
    repeat rewrite in_app_iff; cbn; auto.
Qed.

(** X12.  The transfer form accepts a destination number exactly when an
    active account of either table has it: an inactive account is not a
    destination.  A new account that [save] has stored is found under the
    number it was given, and storing it loses no destination that was
    accepted before.  The form refuses a transfer whose two numbers are
    equal, and also one where both are missing. *)
Theorem transfer_destination (db : Db.Tables) :
  (forall n,
     clean_to_account n db = inr n <->
     exists a, In a (Db.all_rows db) /\ account_number a = n /\
               is_active a = true) /\
  (forall ty initial r a r' db',
     Db.Account_save_new (Db.new_account ty initial) r db
       = (inr a, r', db') ->
     clean_to_account (account_number a) db' = inr (account_number a) /\
     forall n, clean_to_account n db = inr n ->
               clean_to_account n db' = inr n) /\
  (forall f t,
     (exists ok, TransferForm_clean f t = inr ok) <-> f <> t).
Proof.
  split; [intro n; apply clean_to_account_In |]. split.
  - intros ty initial r a r' db' E.
    unfold Db.Account_save_new in E.
    pose proof (assign_account_number_fields
                  (Db.new_account ty initial) r) as (_ & _ & Act).
    destruct (assign_account_number (Db.new_account ty initial) r)
      as [a1 r1] eqn:Ea.
    cbn [fst] in Act.
    destruct (Db.insert_row a1 db) as [e | db1] eqn:Ei; [discriminate |].
    inversion E. subst a r' db'. clear E.
    apply insert_row_rows in Ei. destruct Ei as [Hin Hkeep].
    split.
    + apply clean_to_account_In. exists a1. auto.
    + intros n Hn. apply clean_to_account_In.
      apply clean_to_account_In in Hn. destruct Hn as (x & Hx & R).
      exists x. auto.
  - intros f t. unfold TransferForm_clean.
    destruct f as [f |], t as [t |]; cbn.
    + destruct (String.eqb_spec f t) as [E | N]; split.
      * intros (ok & H). discriminate.
      * intro H. congruence.
      * intros _. congruence.
      * intros _. eauto.
    + split; [intros _; discriminate | intros _; eauto].
    + split; [intros _; discriminate | intros _; eauto].
    + split; [intros (ok & H); discriminate | intro H; congruence].
Qed.

Lemma transfer_destination_witness :
  (exists a r' db',
     Db.Account_save_new (Db.new_account CURRENT (dec "1000.00"))
       counting_rng Db.empty = (inr a, r', db') /\
     clean_to_account "012345678901" db' = inr "012345678901") /\
  clean_to_account "012345678901" Db.empty
    = inl (mkValidationError
             "Invalid account number or account not active.").
Proof.
  split; [| reflexivity].
  eexists. eexists. eexists.
  assert (E : Db.Account_save_new (Db.new_account CURRENT (dec "1000.00"))
                counting_rng Db.empty
              = (inr (mkAccount "012345678901" CURRENT
                                (dec "1000.00") true),
                 mkRng (fun n => n) 12%nat,
                 Db.mkTables []
                   [mkAccount "012345678901" CURRENT
                              (dec "1000.00") true]))
    by reflexivity.
  split; [exact E |].
  exact (proj1 (proj1 (proj2 (transfer_destination Db.empty))
                      _ _ _ _ _ _ E)).
Defined.
